(** * Chat route of 537-AI-ChatBox: a shallow embedding and its properties

    Source: [src/app/(chat)/api/chat/route.ts], the [POST] and [DELETE]
    handlers of [/api/chat] together with the four tools the [POST] handler
    hands to the model ([getWeather], [createDocument], [updateDocument],
    [requestSuggestions]) and its [onFinish] callback.

    The handlers are asynchronous TypeScript functions that read and write a
    relational store, push events on the response's data stream, draw
    identifiers and time stamps, and may throw.  They are embedded as
    computations in a state-and-exception monad [M] over a record [World]
    that holds the tables, the outbound stream of the request being served,
    the identifier and clock supplies and a schedule of persistence faults.
    Debug output through [console.log] is left out; [console.error] is kept.
    What the route imports from outside the repository (the model SDK, the
    session provider) is a field of the class [Collaborators]; what it
    imports from files of the repository that are not part of the sources at
    hand ([lib/db/queries], [lib/utils]) is modelled from the specification
    and marked so. *)

From stdpp Require Import base option list strings pretty gmap fin_maps.

Open Scope string_scope.
Open Scope Z_scope.
Open Scope list_scope.

(** ** Data model *)

(** Roles of the SDK's core messages (a union of string literals). *)
Inductive Role := RoleSystem | RoleUser | RoleAssistant | RoleTool.

Global Instance Role_eq_dec : EqDecision Role.
Proof. solve_decision. Defined.

(** [z.enum(['text', 'code'])] *)
Inductive Kind := KindText | KindCode.

Global Instance Kind_eq_dec : EqDecision Kind.
Proof. solve_decision. Defined.

Definition kind_name (k : Kind) : string :=
  match k with KindText => "text" | KindCode => "code" end.

(** Content parts of a core message: the route only tells text, tool calls
    and tool results apart. *)
Inductive ContentPart :=
| TextPart (text : string)
| ToolCallPart (toolCallId toolName args : string)
| ToolResultPart (toolCallId toolName result : string)
| OtherPart (type : string).

(** [content: string | Array<part>] *)
Inductive Content :=
| ContentString (s : string)
| ContentParts (parts : list ContentPart).

Record CoreMessage := {
  role : Role;
  content : Content;
}.

(** The UI message of the request body, before [convertToCoreMessages]. *)
Record Message := {
  ui_id : string;
  ui_role : string;
  ui_content : string;
}.

(** An entry of the configured [models] table. *)
Record Model := {
  model_id : string;
  model_label : string;
  apiIdentifier : string;
}.

(** The session returned by [auth()]: every level may be missing. *)
Record User := { user_id : option string }.
Record Session := { session_user : option User }.

(** [session.user?.id] *)
Definition session_user_id (session : Session) : option string :=
  match session_user session with
  | Some u => user_id u
  | None => None
  end.

(** Rows of the store. *)
Record Chat := {
  chat_id : string;
  chat_userId : string;
  chat_title : string;
  chat_createdAt : Z;
}.

Record MessageRow := {
  msg_id : string;
  msg_chatId : string;
  msg_role : Role;
  msg_content : Content;
  msg_createdAt : Z;
}.

Record Document := {
  doc_id : string;
  doc_title : string;
  doc_kind : Kind;
  doc_content : option string;       (* a nullable column *)
  doc_userId : string;
  doc_createdAt : Z;
}.

(** The argument of [saveDocument]. *)
Record DocumentInput := {
  in_id : string;
  in_title : string;
  in_kind : Kind;
  in_content : string;
  in_userId : string;
}.

(** [Omit<Suggestion, 'userId' | 'createdAt' | 'documentCreatedAt'>] *)
Record SuggestionDraft := {
  sd_originalText : string;
  sd_suggestedText : string;
  sd_description : string;
  sd_id : string;
  sd_documentId : string;
  sd_isResolved : bool;
}.

Record Suggestion := {
  sg_draft : SuggestionDraft;
  sg_userId : string;
  sg_createdAt : Z;
  sg_documentCreatedAt : Z;
}.

(** ** The data stream *)

Inductive DataContent :=
| CString (s : string)
| CSuggestion (s : SuggestionDraft).

(** What travels on the response's channel: [writeData] records,
    [writeMessageAnnotation] records, the parts merged in from the top-level
    generation, and the error part the SDK appends when [execute] fails. *)
Inductive DataStreamPart :=
| DataPart (type : string) (content : DataContent)
| AnnotationPart (messageIdFromServer : string)
| ModelTextPart (text : string)
| ModelToolResultPart (toolName : string)
| ErrorPart (message : string).

(** ** The world a handler runs in *)

Record World := {
  chats : gmap string Chat;
  messages : list MessageRow;
  documents : gmap string Document;
  suggestions : list Suggestion;
  dataStream : list DataStreamPart;
  uuids : nat;                 (* identifiers drawn so far *)
  clock : Z;                   (* the next value of [new Date()] *)
  errlog : list string;        (* [console.error] *)
  faults : list bool;          (* whether the next store calls fail *)
}.

Definition set_chats (f : gmap string Chat → gmap string Chat) (w : World) : World :=
  {| chats := f (chats w); messages := messages w; documents := documents w;
     suggestions := suggestions w; dataStream := dataStream w; uuids := uuids w;
     clock := clock w; errlog := errlog w; faults := faults w |}.

Definition set_messages (f : list MessageRow → list MessageRow) (w : World) : World :=
  {| chats := chats w; messages := f (messages w); documents := documents w;
     suggestions := suggestions w; dataStream := dataStream w; uuids := uuids w;
     clock := clock w; errlog := errlog w; faults := faults w |}.

Definition set_documents (f : gmap string Document → gmap string Document) (w : World) : World :=
  {| chats := chats w; messages := messages w; documents := f (documents w);
     suggestions := suggestions w; dataStream := dataStream w; uuids := uuids w;
     clock := clock w; errlog := errlog w; faults := faults w |}.

Definition set_suggestions (f : list Suggestion → list Suggestion) (w : World) : World :=
  {| chats := chats w; messages := messages w; documents := documents w;
     suggestions := f (suggestions w); dataStream := dataStream w; uuids := uuids w;
     clock := clock w; errlog := errlog w; faults := faults w |}.

Definition set_dataStream (f : list DataStreamPart → list DataStreamPart) (w : World) : World :=
  {| chats := chats w; messages := messages w; documents := documents w;
     suggestions := suggestions w; dataStream := f (dataStream w); uuids := uuids w;
     clock := clock w; errlog := errlog w; faults := faults w |}.

Definition set_uuids (f : nat → nat) (w : World) : World :=
  {| chats := chats w; messages := messages w; documents := documents w;
     suggestions := suggestions w; dataStream := dataStream w; uuids := f (uuids w);
     clock := clock w; errlog := errlog w; faults := faults w |}.

Definition set_clock (f : Z → Z) (w : World) : World :=
  {| chats := chats w; messages := messages w; documents := documents w;
     suggestions := suggestions w; dataStream := dataStream w; uuids := uuids w;
     clock := f (clock w); errlog := errlog w; faults := faults w |}.

Definition set_errlog (f : list string → list string) (w : World) : World :=
  {| chats := chats w; messages := messages w; documents := documents w;
     suggestions := suggestions w; dataStream := dataStream w; uuids := uuids w;
     clock := clock w; errlog := f (errlog w); faults := faults w |}.

Definition set_faults (f : list bool → list bool) (w : World) : World :=
  {| chats := chats w; messages := messages w; documents := documents w;
     suggestions := suggestions w; dataStream := dataStream w; uuids := uuids w;
     clock := clock w; errlog := errlog w; faults := f (faults w) |}.

(** ** The monad of handlers: state and exceptions *)

Inductive outcome (A : Type) :=
| Ok (a : A)
| Throw (e : string).
Arguments Ok {A} a.
Arguments Throw {A} e.

Definition M (A : Type) : Type := World → outcome A * World.

Global Instance M_ret : MRet M := λ A a w, (Ok a, w).

Global Instance M_bind : MBind M := λ A B f m w,
  match m w with
  | (Ok a, w') => f a w'
  | (Throw e, w') => (Throw e, w')
  end.

Definition throw {A} (e : string) : M A := λ w, (Throw e, w).

(** [try { body } catch (error) { handler }] *)
Definition try_catch {A} (body : M A) (handler : string → M A) : M A := λ w,
  match body w with
  | (Ok a, w') => (Ok a, w')
  | (Throw e, w') => handler e w'
  end.

(** [for await (const x of stream) { s = body(s, x) }] over a stream that
    ends: the elements are taken in order, the loop variable is threaded. *)
Fixpoint for_await {A S} (body : S → A → M S) (s : S) (stream : list A) : M S :=
  match stream with
  | [] => mret s
  | x :: rest => s' ← body s x; for_await body s' rest
  end.

(** [array.map(f)] with an effectful callback, left to right. *)
Fixpoint map_M {A B} (f : A → M B) (l : list A) : M (list B) :=
  match l with
  | [] => mret []
  | x :: rest => y ← f x; ys ← map_M f rest; mret (y :: ys)
  end.

(** ** Primitive effects *)

(** [dataStream.writeData({ type, content })] *)
Definition writeData (type : string) (content : DataContent) : M unit := λ w,
  (Ok (), set_dataStream (λ s, s ++ [DataPart type content]) w).

(** [dataStream.writeMessageAnnotation({ messageIdFromServer })] *)
Definition writeMessageAnnotation (messageIdFromServer : string) : M unit := λ w,
  (Ok (), set_dataStream (λ s, s ++ [AnnotationPart messageIdFromServer]) w).

(** A part of the top-level generation merged into the stream by
    [result.mergeIntoDataStream(dataStream)]. *)
Definition mergePart (p : DataStreamPart) : M unit := λ w,
  (Ok (), set_dataStream (λ s, s ++ [p]) w).

(** The world after the parts [ps] went out on the channel. *)
Definition emit (ps : list DataStreamPart) (w : World) : World :=
  set_dataStream (λ s, s ++ ps) w.

(** [console.error(msg)] *)
Definition console_error (msg : string) : M unit := λ w,
  (Ok (), set_errlog (λ l, l ++ [msg]) w).

(** [new Date()]: reads the clock, which then moves on. *)
Definition newDate : M Z := λ w,
  (Ok (clock w), set_clock (λ t, t + 1) w).

(** Modelled from the spec: [generateUUID] of [lib/utils], which is not among
    the sources.  The spec asks for "a freshly generated identifier": the
    n-th identifier drawn is [uuid_of n], and no two draws give the same. *)
Definition uuid_of (n : nat) : string := "uuid-" +:+ pretty n.

Definition generateUUID : M string := λ w,
  (Ok (uuid_of (uuids w)), set_uuids S w).

Arguments uuid_of : simpl never.

(** A call into the persistence layer: it fails when the fault schedule
    says so, and runs otherwise. *)
Definition query {A} (run : World → A * World) : M A := λ w,
  match faults w with
  | true :: fs => (Throw "persistence failure", set_faults (λ _, fs) w)
  | false :: fs => let '(a, w') := run (set_faults (λ _, fs) w) in (Ok a, w')
  | [] => let '(a, w') := run w in (Ok a, w')
  end.

(** ** The persistence layer *)

(** Modelled from the spec: the queries of [lib/db/queries], which is not
    among the sources ("a persistence layer exposing get/save/delete for
    chats, messages, documents, suggestions").  Chats and documents are keyed
    by their identifier, messages and suggestions are appended.  A lookup of
    a missing row answers [None], JavaScript's [undefined]: the [POST]
    handler tests the answer of [getChatById] with [if (!chat)]. *)
Definition getChatById (id : string) : M (option Chat) :=
  query (λ w, (chats w !! id, w)).

(** Modelled from the spec: "Chat: identifier, owning user identifier, title,
    creation time.  Created on first message of a new conversation". *)
Definition saveChat (id userId title : string) : M unit :=
  query (λ w,
    let row := {| chat_id := id; chat_userId := userId; chat_title := title;
                  chat_createdAt := clock w |} in
    ((), set_clock (λ t, t + 1) (set_chats (λ m, <[id := row]> m) w))).

(** Modelled from the spec: "deletes all rows for that chat". *)
Definition deleteChatById (id : string) : M unit :=
  query (λ w,
    ((), set_messages (filter (λ r, msg_chatId r ≠ id))
           (set_chats (λ m, delete id m) w))).

(** Modelled from the spec: "Message: ... Appended only". *)
Definition saveMessages (rows : list MessageRow) : M unit :=
  query (λ w, ((), set_messages (λ l, l ++ rows) w)).

(** Modelled from the spec: the document of that identifier, if any. *)
Definition getDocumentById (id : string) : M (option Document) :=
  query (λ w, (documents w !! id, w)).

(** The row [saveDocument] leaves in the table: a new document is stamped
    with the current time, an existing one keeps its creation time. *)
Definition document_row (d : DocumentInput) (old : option Document) (now : Z) : Document :=
  {| doc_id := in_id d; doc_title := in_title d; doc_kind := in_kind d;
     doc_content := Some (in_content d); doc_userId := in_userId d;
     doc_createdAt := match old with Some o => doc_createdAt o | None => now end |}.

(** Modelled from the spec: "Document: ... Created by the creation tool,
    overwritten (new content, same identifier) by the update tool",
    "Overwrites the Document record in place". *)
Definition saveDocument (d : DocumentInput) : M unit :=
  query (λ w,
    let row := document_row d (documents w !! in_id d) (clock w) in
    ((), set_clock (λ t, t + 1) (set_documents (λ m, <[in_id d := row]> m) w))).

(** Modelled from the spec: "persists all accumulated suggestions in one
    batch". *)
Definition saveSuggestions (rows : list Suggestion) : M unit :=
  query (λ w, ((), set_suggestions (λ l, l ++ rows) w)).

(** ** Helpers of [lib/utils] *)

(** JavaScript's test [if (s)] on a string that may be undefined or null:
    it passes when the string is there and is not empty, and the branch then
    works with that string. *)
Definition truthy (s : option string) : option string :=
  match s with
  | Some c => if decide (c = "") then None else Some c
  | None => None
  end.

Definition is_user (m : CoreMessage) : bool := bool_decide (role m = RoleUser).

(** Modelled from the spec: [getMostRecentUserMessage] of [lib/utils], which
    is not among the sources; the handler rejects the request "if the
    incoming message sequence contains no user-authored message" and
    otherwise persists the most recent one. *)
Definition getMostRecentUserMessage (msgs : list CoreMessage) : option CoreMessage :=
  last (filter (λ m, is_user m = true) msgs).

(** The identifiers of the tool calls that were answered. *)
Definition part_result_id (p : ContentPart) : option string :=
  match p with
  | ToolResultPart toolCallId _ _ => Some toolCallId
  | _ => None
  end.

Definition message_parts (m : CoreMessage) : list ContentPart :=
  match content m with
  | ContentString _ => []
  | ContentParts ps => ps
  end.

Definition toolResultIds (msgs : list CoreMessage) : list string :=
  omap part_result_id
    (concat (map message_parts (filter (λ m, role m = RoleTool) msgs))).

(** A part survives unless it is a tool call that got no result. *)
Definition answered (ids : list string) (p : ContentPart) : bool :=
  match p with
  | ToolCallPart toolCallId _ _ => bool_decide (toolCallId ∈ ids)
  | _ => true
  end.

Definition sanitize_content (ids : list string) (m : CoreMessage) : CoreMessage :=
  match role m, content m with
  | RoleAssistant, ContentParts ps =>
      {| role := role m; content := ContentParts (filter (λ p, answered ids p = true) ps) |}
  | _, _ => m
  end.

Definition content_is_empty (c : Content) : bool :=
  match c with
  | ContentString s => bool_decide (s = "")
  | ContentParts ps => bool_decide (ps = [])
  end.

(** Modelled from the spec: [sanitizeResponseMessages] of [lib/utils], which
    is not among the sources: it "strips any assistant-message fragments
    that represent an incomplete (unanswered) tool invocation"; a message
    left with nothing is not among the "remaining" messages. *)
Definition sanitizeResponseMessages (msgs : list CoreMessage) : list CoreMessage :=
  let ids := toolResultIds msgs in
  filter (λ m, content_is_empty (content m) = false) (map (sanitize_content ids) msgs).

(** ** What the route consumes from its collaborators *)

(** Parts of [streamText(...).fullStream]. *)
Inductive TextStreamPart :=
| TextDelta (textDelta : string)
| TextOther (type : string).

(** Parts of [streamObject(...).fullStream] for the schema [{ code }]: the
    partial object may not have its field yet. *)
Inductive ObjectStreamPart :=
| ObjectDelta (code : option string)
| ObjectOther (type : string).

(** Elements of [streamObject({ output: 'array', ... }).elementStream]. *)
Record Element := {
  originalSentence : string;
  suggestedSentence : string;
  description : string;
}.

(** What a tool hands back to the model. *)
Inductive ToolResult :=
| WeatherData (json : string)
| ErrorResult (error : string)
| DocumentResult (id title : string) (kind : Kind) (content : string)
| SuggestionsResult (id title : string) (kind : Kind) (message : string).

(** What the model asks for in the top-level generation. *)
Inductive ToolCall :=
| Call_getWeather (latitude longitude : Z)
| Call_createDocument (title : string) (kind : Kind)
| Call_updateDocument (id description : string)
| Call_requestSuggestions (documentId : string).

Inductive ModelAction :=
| EmitText (text : string)
| Invoke (call : ToolCall).

(** One top-level generation: what the model does in each round, and the
    messages the SDK reports in [response.messages] at the end. *)
Record Generation := {
  gen_steps : list (list ModelAction);
  gen_response : list CoreMessage;
}.

(** The model SDK ([ai]), the tables and prompts of [lib/ai], the title
    action and the weather service, none of which the route defines.  The
    generations are arbitrary: every property below holds whatever the model
    produces.  The streams are taken to end, the conversions not to throw. *)
Class Collaborators := {
  models : list Model;
  systemPrompt : string;
  codePrompt : string;
  updateDocumentPrompt : option string → Kind → string;
  convertToCoreMessages : list Message → list CoreMessage;
  generateTitleFromUserMessage : CoreMessage → string;
  (* model, system, prompt, predicted content *)
  streamText_fullStream : string → string → string → option string → list TextStreamPart;
  (* model, system, prompt *)
  streamObject_fullStream : string → string → string → list ObjectStreamPart;
  streamObject_elementStream : string → string → string → list Element;
  (* model, system, messages *)
  streamText_generation : string → string → list CoreMessage → Generation;
  fetch_forecast : Z → Z → string;
}.

(** ** The route *)

(** [new Response(body, { status })] and the streamed response. *)
Inductive Body :=
| BodyText (s : string)
| BodyStream (parts : list DataStreamPart).

Record Response := {
  body : Body;
  status : Z;
}.

Definition plain (text : string) (code : Z) : Response :=
  {| body := BodyText text; status := code |}.

(** The parsed body of a [POST] request. *)
Record PostRequest := {
  req_id : string;
  req_messages : list Message;
  req_modelId : string;
}.

Section Route.
Context `{Collaborators}.

(** [maxSteps: 5] *)
Definition maxSteps : nat := 5.

(** *** Bodies of the generation loops

    The loops over [fullStream] appear twice in the source, once in
    [createDocument] and once in [updateDocument], with the same body. *)

(** [if (type === 'text-delta') { draftText += textDelta; writeData(...) }] *)
Definition text_delta_body (draftText : string) (delta : TextStreamPart) : M string :=
  match delta with
  | TextDelta textDelta =>
      let draftText := draftText +:+ textDelta in
      writeData "text-delta" (CString textDelta);;
      mret draftText
  | TextOther _ => mret draftText
  end.

(** [if (type === 'object') { if (code) { writeData(...); draftText = code } }] *)
Definition code_delta_body (draftText : string) (delta : ObjectStreamPart) : M string :=
  match delta with
  | ObjectDelta code =>
      match truthy code with
      | Some code =>
          writeData "code-delta" (CString code);;
          mret code
      | None => mret draftText
      end
  | ObjectOther _ => mret draftText
  end.

(** *** The tools *)

Definition getWeather_execute (latitude longitude : Z) : M ToolResult :=
  mret (WeatherData (fetch_forecast latitude longitude)).

Definition createDocument_execute (session : Session) (model : Model)
    (title : string) (kind : Kind) : M ToolResult :=
  id ← generateUUID;
  writeData "id" (CString id);;
  writeData "title" (CString title);;
  writeData "kind" (CString (kind_name kind));;
  writeData "clear" (CString "");;
  draftText ←
    match kind with
    | KindText =>
        let fullStream :=
          streamText_fullStream (apiIdentifier model)
            "Write about the given topic. Markdown is supported. Use headings wherever appropriate."
            title None in
        draftText ← for_await text_delta_body "" fullStream;
        writeData "finish" (CString "");;
        mret draftText
    | KindCode =>
        let fullStream :=
          streamObject_fullStream (apiIdentifier model) codePrompt title in
        draftText ← for_await code_delta_body "" fullStream;
        writeData "finish" (CString "");;
        mret draftText
    end;
  match truthy (session_user_id session) with
  | Some userId =>
      saveDocument {| in_id := id; in_title := title; in_kind := kind;
                      in_content := draftText; in_userId := userId |}
  | None => mret ()
  end;;
  mret (DocumentResult id title kind
          "A document was created and is now visible to the user.").

Definition updateDocument_execute (session : Session) (model : Model)
    (id description : string) : M ToolResult :=
  document ← getDocumentById id;
  match document with
  | None => mret (ErrorResult "Document not found")
  | Some document =>
      let currentContent := doc_content document in
      writeData "clear" (CString (doc_title document));;
      draftText ←
        match doc_kind document with
        | KindText =>
            let fullStream :=
              streamText_fullStream (apiIdentifier model)
                (updateDocumentPrompt currentContent KindText)
                description currentContent in
            draftText ← for_await text_delta_body "" fullStream;
            writeData "finish" (CString "");;
            mret draftText
        | KindCode =>
            let fullStream :=
              streamObject_fullStream (apiIdentifier model)
                (updateDocumentPrompt currentContent KindCode)
                description in
            draftText ← for_await code_delta_body "" fullStream;
            writeData "finish" (CString "");;
            mret draftText
        end;
      match truthy (session_user_id session) with
      | Some userId =>
          saveDocument {| in_id := id; in_title := doc_title document;
                          in_kind := doc_kind document;
                          in_content := draftText; in_userId := userId |}
      | None => mret ()
      end;;
      mret (DocumentResult id (doc_title document) (doc_kind document)
              "The document has been updated successfully.")
  end.

Definition suggestions_system : string :=
  "You are a help writing assistant. Given a piece of writing, please offer suggestions to improve the piece of writing and describe the change. It is very important for the edits to contain full sentences instead of just words. Max 5 suggestions.".

(** The body of the loop over [elementStream]. *)
Definition suggestion_body (documentId : string)
    (suggestions : list SuggestionDraft) (element : Element) : M (list SuggestionDraft) :=
  id ← generateUUID;
  let suggestion :=
    {| sd_originalText := originalSentence element;
       sd_suggestedText := suggestedSentence element;
       sd_description := description element;
       sd_id := id;
       sd_documentId := documentId;
       sd_isResolved := false |} in
  writeData "suggestion" (CSuggestion suggestion);;
  mret (suggestions ++ [suggestion]).

(** The callback of [suggestions.map(...)]. *)
Definition suggestion_row (userId : string) (document : Document)
    (suggestion : SuggestionDraft) : M Suggestion :=
  createdAt ← newDate;
  mret {| sg_draft := suggestion; sg_userId := userId; sg_createdAt := createdAt;
          sg_documentCreatedAt := doc_createdAt document |}.

Definition requestSuggestions_execute (session : Session) (model : Model)
    (documentId : string) : M ToolResult :=
  document ← getDocumentById documentId;
  match document with
  | None => mret (ErrorResult "Document not found")
  | Some document =>
      match truthy (doc_content document) with
      | None => mret (ErrorResult "Document not found")
      | Some content =>
          let elementStream :=
            streamObject_elementStream (apiIdentifier model) suggestions_system content in
          suggestions ← for_await (suggestion_body documentId) [] elementStream;
          match truthy (session_user_id session) with
          | Some userId =>
              rows ← map_M (suggestion_row userId document) suggestions;
              saveSuggestions rows
          | None => mret ()
          end;;
          mret (SuggestionsResult documentId (doc_title document) (doc_kind document)
                  "Suggestions have been added to the document")
      end
  end.

(** The [tools] table of the top-level generation. *)
Definition execute_tool (session : Session) (model : Model) (call : ToolCall) : M ToolResult :=
  match call with
  | Call_getWeather latitude longitude => getWeather_execute latitude longitude
  | Call_createDocument title kind => createDocument_execute session model title kind
  | Call_updateDocument id description => updateDocument_execute session model id description
  | Call_requestSuggestions documentId => requestSuggestions_execute session model documentId
  end.

Definition tool_name (call : ToolCall) : string :=
  match call with
  | Call_getWeather _ _ => "getWeather"
  | Call_createDocument _ _ => "createDocument"
  | Call_updateDocument _ _ => "updateDocument"
  | Call_requestSuggestions _ => "requestSuggestions"
  end.

(** *** [onFinish] *)

(** The callback of [responseMessagesWithoutIncompleteToolCalls.map(...)]. *)
Definition response_row (id : string) (message : CoreMessage) : M MessageRow :=
  messageId ← generateUUID;
  (if decide (role message = RoleAssistant)
   then writeMessageAnnotation messageId
   else mret ());;
  createdAt ← newDate;
  mret {| msg_id := messageId; msg_chatId := id; msg_role := role message;
          msg_content := content message; msg_createdAt := createdAt |}.

Definition onFinish (session : Session) (id : string)
    (response_messages : list CoreMessage) : M unit :=
  match truthy (session_user_id session) with
  | Some _ =>
      try_catch
        (let responseMessagesWithoutIncompleteToolCalls :=
           sanitizeResponseMessages response_messages in
         rows ← map_M (response_row id) responseMessagesWithoutIncompleteToolCalls;
         saveMessages rows)
        (λ error, console_error "Failed to save chat")
  | None => mret ()
  end.

(** *** The top-level generation

    The generation is the SDK's, not the route's.  Here its rounds, at most
    [maxSteps] of them, are taken one after the other and each tool call is
    run to its end before the next action; the SDK itself may start the tool
    calls of one round together, so that their events interleave on the
    shared data stream, and goes on to [onFinish] after a tool has failed.
    Only what does not depend on that order is drawn from these
    definitions: what is only ever added, and what is never touched. *)
Definition run_action (session : Session) (model : Model) (a : ModelAction) : M unit :=
  match a with
  | EmitText text => mergePart (ModelTextPart text)
  | Invoke call =>
      execute_tool session model call;;
      mergePart (ModelToolResultPart (tool_name call))
  end.

Definition run_actions (session : Session) (model : Model) (actions : list ModelAction) : M unit :=
  for_await (λ _ a, run_action session model a) () actions.

Definition streamText (session : Session) (model : Model) (id : string)
    (coreMessages : list CoreMessage) : M unit :=
  let generation :=
    streamText_generation (apiIdentifier model) systemPrompt coreMessages in
  run_actions session model (concat (take maxSteps (gen_steps generation)));;
  onFinish session id (gen_response generation).

(** [createDataStreamResponse({ execute })]: a new channel is opened for the
    response and [execute] writes to it; the response is a stream whatever
    [execute] does, and a failure of [execute] ends it with an error part.
    The world it returns is the one in which the stream has ended: in the
    route [execute] returns at once and the generation goes on after [POST]
    has answered, so other requests can be served in between. *)
Definition createDataStreamResponse (execute : M unit) : M Response := λ w,
  match execute (set_dataStream (λ _, []) w) with
  | (Ok _, w') => (Ok {| body := BodyStream (dataStream w'); status := 200 |}, w')
  | (Throw e, w') =>
      let w'' := set_dataStream (λ s, s ++ [ErrorPart e]) w' in
      (Ok {| body := BodyStream (dataStream w''); status := 200 |}, w'')
  end.

(** *** The handlers *)

(** [export async function POST(request)]; [auth] is what [auth()] answers
    for the request. *)
Definition POST (auth : option Session) (request : PostRequest) : M Response :=
  let id := req_id request in
  let messages := req_messages request in
  let modelId := req_modelId request in
  match auth with
  | None => mret (plain "Unauthorized" 401)
  | Some session =>
  match truthy (session_user_id session) with
  | None => mret (plain "Unauthorized" 401)
  | Some userId =>
  match find (λ model, bool_decide (model_id model = modelId)) models with
  | None => mret (plain "Model not found" 404)
  | Some model =>
  let coreMessages := convertToCoreMessages messages in
  match getMostRecentUserMessage coreMessages with
  | None => mret (plain "No user message found" 400)
  | Some userMessage =>
      chat ← getChatById id;
      match chat with
      | None =>
          let title := generateTitleFromUserMessage userMessage in
          saveChat id userId title
      | Some _ => mret ()
      end;;
      userMessageId ← generateUUID;
      createdAt ← newDate;
      saveMessages
        [ {| msg_id := userMessageId; msg_chatId := id; msg_role := role userMessage;
             msg_content := content userMessage; msg_createdAt := createdAt |} ];;
      createDataStreamResponse
        (writeData "user-message-id" (CString userMessageId);;
         streamText session model id coreMessages)
  end end end end.

(** [export async function DELETE(request)]; [id] is what
    [searchParams.get('id')] answers.  Reading [chat.userId] off a missing
    chat is a [TypeError], which the [catch] turns into the 500 response. *)
Definition DELETE (auth : option Session) (id : option string) : M Response :=
  match truthy id with
  | None => mret (plain "Not Found" 404)
  | Some id =>
  match auth with
  | None => mret (plain "Unauthorized" 401)
  | Some session =>
  match session_user session with
  | None => mret (plain "Unauthorized" 401)
  | Some user =>
      try_catch
        (chat ← getChatById id;
         match chat with
         | None => throw "TypeError: Cannot read properties of undefined (reading 'userId')"
         | Some chat =>
             if decide (Some (chat_userId chat) ≠ user_id user)
             then mret (plain "Unauthorized" 401)
             else
               deleteChatById id;;
               mret (plain "Chat deleted" 200)
         end)
        (λ error, mret (plain "An error occurred while processing your request" 500))
  end end end.

End Route.

(** ** What the loops compute

    Closed forms of what the generation loops leave in the draft and on the
    stream; the loops are proved equal to them below. *)

(** The concatenation of the text deltas. *)
Definition text_draft (draftText : string) (fullStream : list TextStreamPart) : string :=
  foldl (λ acc delta,
           match delta with TextDelta textDelta => acc +:+ textDelta | TextOther _ => acc end)
        draftText fullStream.

Definition text_events (fullStream : list TextStreamPart) : list DataStreamPart :=
  omap (λ delta,
          match delta with
          | TextDelta textDelta => Some (DataPart "text-delta" (CString textDelta))
          | TextOther _ => None
          end) fullStream.

(** The values of [code] that pass the test [if (code)], in order. *)
Definition emitted_codes (fullStream : list ObjectStreamPart) : list string :=
  omap (λ delta,
          match delta with
          | ObjectDelta code => truthy code
          | ObjectOther _ => None
          end) fullStream.

Definition code_events (fullStream : list ObjectStreamPart) : list DataStreamPart :=
  map (λ code, DataPart "code-delta" (CString code)) (emitted_codes fullStream).

(** The last emitted value, or the draft the loop started with. *)
Definition code_draft (draftText : string) (fullStream : list ObjectStreamPart) : string :=
  default draftText (last (emitted_codes fullStream)).

(** The suggestions built from the elements, the first one with the [n]-th
    identifier. *)
Definition suggestion_drafts (documentId : string) (n : nat) (elements : list Element)
  : list SuggestionDraft :=
  imap (λ i element,
          {| sd_originalText := originalSentence element;
             sd_suggestedText := suggestedSentence element;
             sd_description := description element;
             sd_id := uuid_of (n + i);
             sd_documentId := documentId;
             sd_isResolved := false |}) elements.

Definition suggestion_events (drafts : list SuggestionDraft) : list DataStreamPart :=
  map (λ d, DataPart "suggestion" (CSuggestion d)) drafts.

(** The rows saved for them, the first one stamped with time [t]. *)
Definition suggestion_rows (userId : string) (documentCreatedAt t : Z)
    (drafts : list SuggestionDraft) : list Suggestion :=
  imap (λ i d,
          {| sg_draft := d; sg_userId := userId; sg_createdAt := t + Z.of_nat i;
             sg_documentCreatedAt := documentCreatedAt |}) drafts.

(** The rows [onFinish] saves for the messages [msgs], the first one with
    the [n]-th identifier and time [t], and the annotations it writes. *)
Definition response_rows (id : string) (n : nat) (t : Z) (msgs : list CoreMessage)
  : list MessageRow :=
  imap (λ i message,
          {| msg_id := uuid_of (n + i); msg_chatId := id; msg_role := role message;
             msg_content := content message; msg_createdAt := t + Z.of_nat i |}) msgs.

Definition response_annotations (n : nat) (msgs : list CoreMessage) : list DataStreamPart :=
  omap (λ x, x)
    (imap (λ i message,
             if decide (role message = RoleAssistant)
             then Some (AnnotationPart (uuid_of (n + i))) else None) msgs).

(** The sequence [id, title, kind, clear, code-delta ..., finish] of a
    creation of kind [code] whose deltas carry the values [codes]. *)
Definition code_creation_events (id title : string) (codes : list string)
  : list DataStreamPart :=
  [DataPart "id" (CString id); DataPart "title" (CString title);
   DataPart "kind" (CString "code"); DataPart "clear" (CString "")]
  ++ map (λ code, DataPart "code-delta" (CString code)) codes
  ++ [DataPart "finish" (CString "")].

(** The document [d] with nothing but its content replaced. *)
Definition replace_content (d : Document) (draft : string) : Document :=
  {| doc_id := doc_id d; doc_title := doc_title d; doc_kind := doc_kind d;
     doc_content := Some draft; doc_userId := doc_userId d;
     doc_createdAt := doc_createdAt d |}.

(** The draft and the deltas of an update of a document of kind [kind]. *)
Definition update_draft `{Collaborators} (model : Model) (document : Document)
    (description : string) : string :=
  match doc_kind document with
  | KindText =>
      text_draft ""
        (streamText_fullStream (apiIdentifier model)
           (updateDocumentPrompt (doc_content document) KindText)
           description (doc_content document))
  | KindCode =>
      code_draft ""
        (streamObject_fullStream (apiIdentifier model)
           (updateDocumentPrompt (doc_content document) KindCode) description)
  end.

Definition update_deltas `{Collaborators} (model : Model) (document : Document)
    (description : string) : list DataStreamPart :=
  match doc_kind document with
  | KindText =>
      text_events
        (streamText_fullStream (apiIdentifier model)
           (updateDocumentPrompt (doc_content document) KindText)
           description (doc_content document))
  | KindCode =>
      code_events
        (streamObject_fullStream (apiIdentifier model)
           (updateDocumentPrompt (doc_content document) KindCode) description)
  end.

(** A tool call of the content that no tool message answers. *)
Definition unanswered_call (response : list CoreMessage) (c : Content) : Prop :=
  ∃ toolCallId toolName args,
    ToolCallPart toolCallId toolName args ∈
      match c with ContentString _ => [] | ContentParts ps => ps end
    ∧ toolCallId ∉ toolResultIds response.

(** The user whose valid session the request carries, if any: the test
    [!session || !session.user || !session.user.id] of [POST] fails. *)
Definition requester (auth : option Session) : option string :=
  match auth with
  | Some session => truthy (session_user_id session)
  | None => None
  end.

(** The row [POST] saves for the user's message. *)
Definition user_row (id : string) (userMessage : CoreMessage) (n : nat) (t : Z) : MessageRow :=
  {| msg_id := uuid_of n; msg_chatId := id; msg_role := role userMessage;
     msg_content := content userMessage; msg_createdAt := t |}.

(** The chat [POST] creates for a new conversation. *)
Definition new_chat `{Collaborators} (id userId : string) (userMessage : CoreMessage) (t : Z)
  : Chat :=
  {| chat_id := id; chat_userId := userId;
     chat_title := generateTitleFromUserMessage userMessage; chat_createdAt := t |}.

(** The world in which [POST] opens the response stream, once the guards
    are passed and the store calls went through. *)
Definition stream_start `{Collaborators} (userId : string) (userMessage : CoreMessage)
    (id : string) (w : World) : World :=
  let w1 :=
    match chats w !! id with
    | None =>
        set_clock (λ t, t + 1)
          (set_chats (λ m, <[id := new_chat id userId userMessage (clock w)]> m) w)
    | Some _ => w
    end in
  set_messages (λ l, l ++ [user_row id userMessage (uuids w1) (clock w1)])
    (set_clock (λ t, t + 1) (set_uuids S w1)).

(** What the stream phase of [POST] may do to the chats, the messages and
    the channel: chats stay, messages and stream parts are only added. *)
Definition grows (w w' : World) : Prop :=
  chats w' = chats w
  ∧ messages w `prefix_of` messages w'
  ∧ dataStream w `prefix_of` dataStream w'.

(** A computation all of whose runs are related by [R]. *)
Definition stable (R : relation World) {A} (m : M A) : Prop :=
  ∀ w, R w (m w).2.

(** The types of the records the tools write with [writeData]. *)
Definition tool_event_types : list string :=
  ["id"; "title"; "kind"; "clear"; "text-delta"; "code-delta"; "suggestion"; "finish"].

(** A part that may follow the first one on a response: any part that is
    not a [writeData] record, or one with a type of the tools. *)
Definition later_part (p : DataStreamPart) : Prop :=
  match p with
  | DataPart type _ => type ∈ tool_event_types
  | _ => True
  end.

(** A [writeData] record with a type of the tools. *)
Definition tool_part (p : DataStreamPart) : Prop :=
  match p with
  | DataPart type _ => type ∈ tool_event_types
  | _ => False
  end.

(** What one tool call may do: it leaves the chats, the messages and the
    error log alone, removes no document and no suggestion, writes parts of
    the tools' types only, and causes no fault of the store. *)
Definition tool_step (w w' : World) : Prop :=
  chats w' = chats w
  ∧ messages w' = messages w
  ∧ errlog w' = errlog w
  ∧ (∃ parts, dataStream w' = dataStream w ++ parts ∧ Forall tool_part parts)
  ∧ dom (documents w) ⊆ dom (documents w')
  ∧ suggestions w `prefix_of` suggestions w'
  ∧ (faults w = [] → faults w' = []).

(** What the generation of the chat [id] may do: the chats stay, the
    messages added are messages of that chat, the parts added are later
    parts, and no fault of the store is caused. *)
Definition turn (id : string) (w w' : World) : Prop :=
  chats w' = chats w
  ∧ (∃ rows, messages w' = messages w ++ rows ∧ Forall (λ r, msg_chatId r = id) rows)
  ∧ (∃ parts, dataStream w' = dataStream w ++ parts ∧ Forall later_part parts)
  ∧ (faults w = [] → faults w' = []).

(** No stored chat is lost or changed and no stored message is lost. *)
Definition keeps (w w' : World) : Prop :=
  chats w ⊆ chats w' ∧ messages w `prefix_of` messages w'.

(** ** A concrete deployment, to run the handlers on *)

Module Demo.

Definition gpt : Model :=
  {| model_id := "gpt-4o"; model_label := "GPT 4o"; apiIdentifier := "gpt-4o" |}.

Definition convert (m : Message) : CoreMessage :=
  {| role := if decide (ui_role m = "user") then RoleUser else RoleAssistant;
     content := ContentString (ui_content m) |}.

Definition haiku : Element :=
  {| originalSentence := "It rain."; suggestedSentence := "It rains.";
     description := "Agreement" |}.

Definition answer : list CoreMessage :=
  [ {| role := RoleAssistant;
       content := ContentParts [TextPart "Done."; ToolCallPart "call-1" "createDocument" "{}";
                                ToolCallPart "call-2" "getWeather" "{}"] |};
    {| role := RoleTool;
       content := ContentParts [ToolResultPart "call-1" "createDocument" "{}"] |} ].

(** A model that writes, creates a code document and asks for suggestions
    on it. *)
Definition env : Collaborators :=
  {| models := [gpt];
     systemPrompt := "You are a friendly assistant!";
     codePrompt := "You are a code generator.";
     updateDocumentPrompt := λ _ _, "Improve the document.";
     convertToCoreMessages := map convert;
     generateTitleFromUserMessage := λ _, "Greeting";
     streamText_fullStream := λ _ _ _ _, [TextDelta "Hello"; TextOther "step-finish"; TextDelta " world"];
     streamObject_fullStream := λ _ _ _,
       [ObjectDelta None; ObjectDelta (Some "print"); ObjectDelta (Some "print(1)");
        ObjectOther "finish"];
     streamObject_elementStream := λ _ _ _, [haiku];
     streamText_generation := λ _ _ _,
       {| gen_steps := [[EmitText "Sure."; Invoke (Call_createDocument "Script" KindCode)];
                        [Invoke (Call_requestSuggestions "uuid-1")]];
          gen_response := answer |};
     fetch_forecast := λ _ _, "{}" |}.

(** A model whose structured generation ends without ever giving a value
    for the field [code]. *)
Definition silent_env : Collaborators :=
  {| models := [gpt];
     systemPrompt := "You are a friendly assistant!";
     codePrompt := "You are a code generator.";
     updateDocumentPrompt := λ _ _, "Improve the document.";
     convertToCoreMessages := map convert;
     generateTitleFromUserMessage := λ _, "Greeting";
     streamText_fullStream := λ _ _ _ _, [];
     streamObject_fullStream := λ _ _ _, [ObjectDelta None; ObjectOther "finish"];
     streamObject_elementStream := λ _ _ _, [];
     streamText_generation := λ _ _ _, {| gen_steps := []; gen_response := [] |};
     fetch_forecast := λ _ _, "{}" |}.

Definition session_of (uid : string) : Session :=
  {| session_user := Some {| user_id := Some uid |} |}.

Definition alice : Session := session_of "alice".
Definition bob : Session := session_of "bob".

Definition hello : Message :=
  {| ui_id := "m1"; ui_role := "user"; ui_content := "hello" |}.

Definition request : PostRequest :=
  {| req_id := "chat-1"; req_messages := [hello]; req_modelId := "gpt-4o" |}.

Definition empty : World :=
  {| chats := ∅; messages := []; documents := ∅; suggestions := [];
     dataStream := []; uuids := 0; clock := 100; errlog := []; faults := [] |}.

Definition alice_chat : Chat :=
  {| chat_id := "chat-1"; chat_userId := "alice"; chat_title := "Greeting";
     chat_createdAt := 7 |}.

Definition alice_row : MessageRow :=
  {| msg_id := "m0"; msg_chatId := "chat-1"; msg_role := RoleUser;
     msg_content := ContentString "hi"; msg_createdAt := 8 |}.

Definition alice_doc : Document :=
  {| doc_id := "doc-1"; doc_title := "Script"; doc_kind := KindCode;
     doc_content := Some "print(0)"; doc_userId := "alice"; doc_createdAt := 9 |}.

(** A store with one chat, one message and one document, all of Alice. *)
Definition store : World :=
  {| chats := {[ "chat-1" := alice_chat ]}; messages := [alice_row];
     documents := {[ "doc-1" := alice_doc ]}; suggestions := [];
     dataStream := []; uuids := 0; clock := 100; errlog := []; faults := [] |}.

End Demo.

(** ** Properties *)

(** *** Running the monad *)

Lemma run_bind {A B} (m : M A) (f : A → M B) (w : World) :
  (m ≫= f) w =
  match m w with
  | (Ok a, w') => f a w'
  | (Throw e, w') => (Throw e, w')
  end.
Proof. reflexivity. Qed.

Lemma run_bind_ok {A B} (m : M A) (f : A → M B) (w w' : World) (a : A) :
  m w = (Ok a, w') → (m ≫= f) w = f a w'.
Proof. intros Hm. rewrite run_bind, Hm. reflexivity. Qed.

Lemma run_ret {A} (a : A) (w : World) : (mret a : M A) w = (Ok a, w).
Proof. reflexivity. Qed.

(** A store call succeeds when no fault is scheduled. *)
Lemma query_ok {A} (run : World → A * World) (w : World) :
  faults w = [] → query run w = (Ok (run w).1, (run w).2).
Proof.
  intros Hf. unfold query. rewrite Hf. destruct (run w); reflexivity.
Qed.

(** It throws, and changes nothing but the schedule, when one is. *)
Lemma query_fault {A} (run : World → A * World) (w : World) (fs : list bool) :
  faults w = true :: fs →
  query run w = (Throw "persistence failure", set_faults (λ _, fs) w).
Proof. intros Hf. unfold query. rewrite Hf. reflexivity. Qed.

Lemma truthy_Some (s : option string) (c : string) :
  truthy s = Some c ↔ s = Some c ∧ c ≠ "".
Proof.
  unfold truthy. destruct s as [c'|].
  - case_decide as Hc; split.
    + discriminate.
    + intros [[= ->] Hne]. contradiction.
    + intros [= ->]. split; [reflexivity|exact Hc].
    + intros [[= ->] _]. reflexivity.
  - split; [discriminate|]. intros [[=] _].
Qed.

Lemma truthy_None (s : option string) :
  truthy s = None ↔ s = None ∨ s = Some "".
Proof.
  unfold truthy. destruct s as [c'|].
  - case_decide as Hc; split.
    + intros _. right. by rewrite Hc.
    + reflexivity.
    + discriminate.
    + intros [[=]|[= ->]]. contradiction.
  - split; [by left|reflexivity].
Qed.

(** [getMostRecentUserMessage] finds nothing exactly when no message of the
    sequence has the role [user]. *)
Lemma getMostRecentUserMessage_None (msgs : list CoreMessage) :
  getMostRecentUserMessage msgs = None ↔ Forall (λ m, role m ≠ RoleUser) msgs.
Proof.
  unfold getMostRecentUserMessage. rewrite last_None. split.
  - intros Hnil. apply Forall_forall. intros m Hin Hrole.
    eapply (filter_nil_not_elem_of _ _ m); [exact Hnil| |exact Hin].
    unfold is_user. apply bool_decide_eq_true. exact Hrole.
  - intros Hall. induction Hall as [|m l Hm _ IH]; [reflexivity|].
    rewrite filter_cons. case_decide as Hu; [|exact IH].
    unfold is_user in Hu. apply bool_decide_eq_true in Hu. contradiction.
Qed.

(** What it finds is a message of the sequence with the role [user], and no
    later message has that role. *)
Lemma getMostRecentUserMessage_Some (msgs : list CoreMessage) (m : CoreMessage) :
  getMostRecentUserMessage msgs = Some m →
  role m = RoleUser ∧ ∃ before after,
    msgs = before ++ m :: after ∧ Forall (λ m', role m' ≠ RoleUser) after.
Proof.
  unfold getMostRecentUserMessage.
  induction msgs as [|x l IH] using rev_ind; [discriminate|].
  rewrite filter_app, filter_cons, filter_nil.
  case_decide as Hu.
  - rewrite last_snoc. intros [= <-]. split.
    + unfold is_user in Hu. by apply bool_decide_eq_true in Hu.
    + exists l, []. split; [reflexivity|constructor].
  - rewrite app_nil_r. intros Hl. destruct (IH Hl) as (Hr & before & after & -> & Hafter).
    split; [exact Hr|]. exists before, (after ++ [x]). split.
    + by rewrite <- app_assoc.
    + apply Forall_app. split; [exact Hafter|]. constructor; [|constructor].
      intros Hx. apply Hu. unfold is_user. by apply bool_decide_eq_true.
Qed.

Lemma find_model_None (ms : list Model) (modelId : string) :
  find (λ model, bool_decide (model_id model = modelId)) ms = None ↔
  Forall (λ model, model_id model ≠ modelId) ms.
Proof.
  induction ms as [|m l IH]; simpl.
  - split; [constructor|reflexivity].
  - case_bool_decide as Hm.
    + split; [discriminate|]. intros Hall. inversion Hall; contradiction.
    + rewrite IH. split.
      * intros Hall. by constructor.
      * intros Hall. by inversion Hall.
Qed.

(** *** The primitive effects, run *)

Lemma run_writeData (type : string) (c : DataContent) (w : World) :
  writeData type c w = (Ok (), emit [DataPart type c] w).
Proof. reflexivity. Qed.

Lemma run_writeMessageAnnotation (i : string) (w : World) :
  writeMessageAnnotation i w = (Ok (), emit [AnnotationPart i] w).
Proof. reflexivity. Qed.

Lemma run_mergePart (p : DataStreamPart) (w : World) :
  mergePart p w = (Ok (), emit [p] w).
Proof. reflexivity. Qed.

Lemma run_generateUUID (w : World) :
  generateUUID w = (Ok (uuid_of (uuids w)), set_uuids S w).
Proof. reflexivity. Qed.

Lemma run_newDate (w : World) :
  newDate w = (Ok (clock w), set_clock (λ t, t + 1) w).
Proof. reflexivity. Qed.

Lemma run_console_error (msg : string) (w : World) :
  console_error msg w = (Ok (), set_errlog (λ l, l ++ [msg]) w).
Proof. reflexivity. Qed.

Lemma run_getChatById (id : string) (w : World) :
  faults w = [] → getChatById id w = (Ok (chats w !! id), w).
Proof. intros Hf. unfold getChatById. by rewrite query_ok. Qed.

Lemma run_saveChat (id userId title : string) (w : World) :
  faults w = [] →
  saveChat id userId title w =
  (Ok (), set_clock (λ t, t + 1)
            (set_chats (λ m, <[id := {| chat_id := id; chat_userId := userId;
                                        chat_title := title;
                                        chat_createdAt := clock w |}]> m) w)).
Proof. intros Hf. unfold saveChat. by rewrite query_ok. Qed.

Lemma run_deleteChatById (id : string) (w : World) :
  faults w = [] →
  deleteChatById id w =
  (Ok (), set_messages (filter (λ r, msg_chatId r ≠ id))
            (set_chats (λ m, delete id m) w)).
Proof. intros Hf. unfold deleteChatById. by rewrite query_ok. Qed.

Lemma run_saveMessages (rows : list MessageRow) (w : World) :
  faults w = [] → saveMessages rows w = (Ok (), set_messages (λ l, l ++ rows) w).
Proof. intros Hf. unfold saveMessages. by rewrite query_ok. Qed.

Lemma run_getDocumentById (id : string) (w : World) :
  faults w = [] → getDocumentById id w = (Ok (documents w !! id), w).
Proof. intros Hf. unfold getDocumentById. by rewrite query_ok. Qed.

Lemma run_saveDocument (d : DocumentInput) (w : World) :
  faults w = [] →
  saveDocument d w =
  (Ok (), set_clock (λ t, t + 1)
            (set_documents
               (λ m, <[in_id d := document_row d (documents w !! in_id d) (clock w)]> m) w)).
Proof. intros Hf. unfold saveDocument. by rewrite query_ok. Qed.

Lemma run_saveSuggestions (rows : list Suggestion) (w : World) :
  faults w = [] →
  saveSuggestions rows w = (Ok (), set_suggestions (λ l, l ++ rows) w).
Proof. intros Hf. unfold saveSuggestions. by rewrite query_ok. Qed.

(** One step of a computation whose head is a primitive that cannot fail. *)
Ltac mstep :=
  first [ rewrite run_bind | rewrite run_ret | rewrite run_writeData
        | rewrite run_writeMessageAnnotation | rewrite run_mergePart
        | rewrite run_generateUUID | rewrite run_newDate
        | rewrite run_console_error ];
  cbv beta iota.

(** Two worlds built from the same one by updates of its fields. *)
Ltac world_eq w :=
  destruct w; unfold emit, set_chats, set_messages, set_documents, set_suggestions,
    set_dataStream, set_uuids, set_clock, set_errlog, set_faults; simpl; f_equal.

Lemma emit_nil (w : World) : emit [] w = w.
Proof. world_eq w. apply app_nil_r. Qed.

Lemma emit_emit (a b : list DataStreamPart) (w : World) :
  emit b (emit a w) = emit (a ++ b) w.
Proof. world_eq w. by rewrite app_assoc. Qed.

(** *** The loops, run *)

Lemma for_await_app {A S} (body : S → A → M S) (l1 l2 : list A) :
  ∀ (s : S) (w : World),
    for_await body s (l1 ++ l2) w =
    match for_await body s l1 w with
    | (Ok s', w1) => for_await body s' l2 w1
    | (Throw e, w1) => (Throw e, w1)
    end.
Proof.
  induction l1 as [|x l IH]; intros s w; simpl; [reflexivity|].
  rewrite !run_bind. destruct (body s x w) as [[s'|e] w1]; [apply IH|reflexivity].
Qed.

Lemma for_await_text (fullStream : list TextStreamPart) :
  ∀ (draftText : string) (w : World),
    for_await text_delta_body draftText fullStream w =
    (Ok (text_draft draftText fullStream), emit (text_events fullStream) w).
Proof.
  induction fullStream as [|delta l IH]; intros d w; simpl for_await.
  - rewrite run_ret, emit_nil. reflexivity.
  - rewrite run_bind. destruct delta as [textDelta|type]; simpl text_delta_body.
    + repeat mstep. rewrite IH, emit_emit. reflexivity.
    + repeat mstep. rewrite IH. reflexivity.
Qed.

Lemma code_draft_cons_emitted (d c : string) (cs : list string) :
  default d (last (c :: cs)) = default c (last cs).
Proof.
  revert c. induction cs as [|c' cs IH]; intros c; [reflexivity|].
  rewrite last_cons. destruct (last (c' :: cs)) eqn:Hl; [reflexivity|].
  apply last_None in Hl. discriminate.
Qed.

Lemma for_await_code (fullStream : list ObjectStreamPart) :
  ∀ (draftText : string) (w : World),
    for_await code_delta_body draftText fullStream w =
    (Ok (code_draft draftText fullStream), emit (code_events fullStream) w).
Proof.
  induction fullStream as [|delta l IH]; intros d w; simpl for_await.
  - rewrite run_ret, emit_nil. reflexivity.
  - rewrite run_bind. destruct delta as [code|type]; simpl code_delta_body.
    + destruct (truthy code) as [c|] eqn:Hc.
      * repeat mstep. rewrite IH, emit_emit.
        unfold code_draft, code_events, emitted_codes. simpl. rewrite Hc. simpl.
        change (list_omap ObjectStreamPart string) with (@omap list _ ObjectStreamPart string).
        rewrite code_draft_cons_emitted. reflexivity.
      * repeat mstep. rewrite IH.
        unfold code_draft, code_events, emitted_codes. simpl. rewrite Hc. reflexivity.
    + repeat mstep. rewrite IH. reflexivity.
Qed.

Lemma suggestion_drafts_cons (documentId : string) (n : nat) (e : Element) (l : list Element) :
  suggestion_drafts documentId n (e :: l) =
  {| sd_originalText := originalSentence e; sd_suggestedText := suggestedSentence e;
     sd_description := description e; sd_id := uuid_of n;
     sd_documentId := documentId; sd_isResolved := false |}
  :: suggestion_drafts documentId (S n) l.
Proof.
  unfold suggestion_drafts. rewrite imap_cons. rewrite Nat.add_0_r. f_equal.
  apply imap_ext. intros i x _. simpl. by rewrite Nat.add_succ_r.
Qed.

Lemma for_await_suggestions (documentId : string) (elements : list Element) :
  ∀ (suggestions : list SuggestionDraft) (w : World),
    for_await (suggestion_body documentId) suggestions elements w =
    (Ok (suggestions ++ suggestion_drafts documentId (uuids w) elements),
     set_uuids (λ n, (n + length elements)%nat)
       (emit (suggestion_events (suggestion_drafts documentId (uuids w) elements)) w)).
Proof.
  induction elements as [|e l IH]; intros acc w; simpl for_await.
  - rewrite run_ret, app_nil_r. f_equal. world_eq w; [by rewrite app_nil_r|lia].
  - rewrite run_bind. unfold suggestion_body. repeat mstep. rewrite IH.
    rewrite suggestion_drafts_cons, <- app_assoc. f_equal.
    world_eq w; [by rewrite <- app_assoc|lia].
Qed.

Lemma suggestion_rows_cons (userId : string) (dc t : Z) (d : SuggestionDraft)
    (l : list SuggestionDraft) :
  suggestion_rows userId dc t (d :: l) =
  {| sg_draft := d; sg_userId := userId; sg_createdAt := t; sg_documentCreatedAt := dc |}
  :: suggestion_rows userId dc (t + 1) l.
Proof.
  unfold suggestion_rows. rewrite imap_cons. f_equal.
  - f_equal. simpl. lia.
  - apply imap_ext. intros i x _. simpl. f_equal. lia.
Qed.

Lemma run_suggestion_row (userId : string) (document : Document) (d : SuggestionDraft)
    (w : World) :
  suggestion_row userId document d w =
  (Ok {| sg_draft := d; sg_userId := userId; sg_createdAt := clock w;
         sg_documentCreatedAt := doc_createdAt document |},
   set_clock (λ t, t + 1) w).
Proof. unfold suggestion_row. repeat mstep. reflexivity. Qed.

Lemma map_M_suggestion_row (userId : string) (document : Document)
    (drafts : list SuggestionDraft) :
  ∀ w : World,
    map_M (suggestion_row userId document) drafts w =
    (Ok (suggestion_rows userId (doc_createdAt document) (clock w) drafts),
     set_clock (λ t, t + Z.of_nat (length drafts)) w).
Proof.
  induction drafts as [|d l IH]; intros w; simpl map_M.
  - rewrite run_ret. f_equal. world_eq w. lia.
  - rewrite run_bind, run_suggestion_row. cbv beta iota.
    rewrite run_bind, IH. cbv beta iota. rewrite run_ret.
    rewrite suggestion_rows_cons. f_equal. world_eq w. lia.
Qed.

Lemma response_rows_cons (id : string) (n : nat) (t : Z) (m : CoreMessage)
    (l : list CoreMessage) :
  response_rows id n t (m :: l) =
  {| msg_id := uuid_of n; msg_chatId := id; msg_role := role m;
     msg_content := content m; msg_createdAt := t |}
  :: response_rows id (S n) (t + 1) l.
Proof.
  unfold response_rows. rewrite imap_cons. f_equal.
  - rewrite Nat.add_0_r. f_equal. simpl. lia.
  - apply imap_ext. intros i x _. simpl. rewrite Nat.add_succ_r. f_equal. lia.
Qed.

Lemma response_annotations_cons (n : nat) (m : CoreMessage) (l : list CoreMessage) :
  response_annotations n (m :: l) =
  (if decide (role m = RoleAssistant) then [AnnotationPart (uuid_of n)] else [])
  ++ response_annotations (S n) l.
Proof.
  unfold response_annotations. rewrite imap_cons. rewrite Nat.add_0_r.
  assert (Hext : imap ((λ (i : nat) (message : CoreMessage),
                          if decide (role message = RoleAssistant)
                          then Some (AnnotationPart (uuid_of (n + i))) else None) ∘ S) l
               = imap (λ (i : nat) (message : CoreMessage),
                          if decide (role message = RoleAssistant)
                          then Some (AnnotationPart (uuid_of (S n + i))) else None) l).
  { apply imap_ext. intros i x _. simpl. by rewrite Nat.add_succ_r. }
  rewrite Hext. case_decide; reflexivity.
Qed.

Lemma run_response_row (id : string) (m : CoreMessage) (w : World) :
  response_row id m w =
  (Ok {| msg_id := uuid_of (uuids w); msg_chatId := id; msg_role := role m;
         msg_content := content m; msg_createdAt := clock w |},
   set_clock (λ t, t + 1)
     (emit (if decide (role m = RoleAssistant)
            then [AnnotationPart (uuid_of (uuids w))] else [])
        (set_uuids S w))).
Proof.
  unfold response_row. case_decide as Hr.
  - repeat mstep. reflexivity.
  - repeat mstep. rewrite emit_nil. reflexivity.
Qed.

(** Building the rows of [onFinish] cannot fail: it draws identifiers,
    reads the clock and writes annotations. *)
Lemma map_M_response_row (id : string) (msgs : list CoreMessage) :
  ∀ w : World,
    map_M (response_row id) msgs w =
    (Ok (response_rows id (uuids w) (clock w) msgs),
     set_clock (λ t, t + Z.of_nat (length msgs))
       (emit (response_annotations (uuids w) msgs)
          (set_uuids (λ n, (n + length msgs)%nat) w))).
Proof.
  induction msgs as [|m l IH]; intros w; simpl map_M.
  - rewrite run_ret. f_equal. world_eq w; [by rewrite app_nil_r|lia|lia].
  - rewrite run_bind, run_response_row. cbv beta iota.
    rewrite run_bind, IH. cbv beta iota. rewrite run_ret.
    rewrite response_rows_cons, response_annotations_cons. f_equal.
    world_eq w; [by rewrite <- app_assoc|lia|lia].
Qed.

Section ToolProperties.
Context `{Collaborators}.

(** *** [updateDocument] on a missing document *)

(** C3. When no stored document has the identifier and the lookup itself
    succeeds, [updateDocument] returns the tool-level result
    [{ error: 'Document not found' }] (the source spells the message with a
    capital D) and leaves the world as it was: no event on the stream, no
    write to any table. *)
Theorem updateDocument_missing (session : Session) (model : Model)
    (id description : string) (w : World) :
  faults w = [] →
  documents w !! id = None →
  updateDocument_execute session model id description w =
  (Ok (ErrorResult "Document not found"), w).
Proof.
  intros Hf Hdoc. unfold updateDocument_execute.
  rewrite run_bind, (run_getDocumentById _ _ Hf), Hdoc. reflexivity.
Qed.

(** *** [createDocument] with [kind = 'code'] *)

(** X3. A creation of kind [text] writes [id], [title], [kind], [clear], one
    [text-delta] per text delta of the generation, and [finish]; the document
    saved has for content the concatenation of the deltas. *)
Theorem createDocument_text_stream (session : Session) (userId : string) (model : Model)
    (title : string) (w : World) :
  faults w = [] →
  truthy (session_user_id session) = Some userId →
  ∃ w' fullStream,
    fullStream =
      streamText_fullStream (apiIdentifier model)
        "Write about the given topic. Markdown is supported. Use headings wherever appropriate."
        title None
    ∧ createDocument_execute session model title KindText w =
        (Ok (DocumentResult (uuid_of (uuids w)) title KindText
               "A document was created and is now visible to the user."), w')
    ∧ dataStream w' =
        dataStream w ++
        [DataPart "id" (CString (uuid_of (uuids w))); DataPart "title" (CString title);
         DataPart "kind" (CString "text"); DataPart "clear" (CString "")]
        ++ text_events fullStream ++ [DataPart "finish" (CString "")]
    ∧ documents w' =
        <[uuid_of (uuids w) :=
            document_row
              {| in_id := uuid_of (uuids w); in_title := title; in_kind := KindText;
                 in_content := text_draft "" fullStream; in_userId := userId |}
              (documents w !! uuid_of (uuids w)) (clock w)]> (documents w).
Proof.
  intros Hf Hs. unfold createDocument_execute.
  repeat mstep. rewrite for_await_text. cbv beta iota.
  repeat mstep. rewrite Hs. cbv beta iota.
  rewrite run_saveDocument by exact Hf. cbv beta iota. rewrite run_ret.
  eexists _, _. split; [reflexivity|]. split; [reflexivity|]. split; [|reflexivity].
  simpl. rewrite <- !app_assoc. reflexivity.
Qed.

(** *** [updateDocument] on a stored document *)

(** C9, as the code has it. An update of a stored document first writes a
    [clear] event whose content is the document's title, then the deltas of
    the new draft and a [finish] event.  The record it hands to
    [saveDocument] has the identifier the document was fetched by and the
    title and the kind of the fetched document; its content is the new
    draft and its owner is the requester, whoever owned the document. *)
Theorem updateDocument_overwrites (session : Session) (userId : string) (model : Model)
    (id description : string) (document : Document) (w : World) :
  faults w = [] →
  truthy (session_user_id session) = Some userId →
  documents w !! id = Some document →
  ∃ w',
    updateDocument_execute session model id description w =
      (Ok (DocumentResult id (doc_title document) (doc_kind document)
             "The document has been updated successfully."), w')
    ∧ dataStream w' =
        dataStream w ++
        DataPart "clear" (CString (doc_title document))
        :: update_deltas model document description
        ++ [DataPart "finish" (CString "")]
    ∧ documents w' =
        <[id := document_row
                  {| in_id := id; in_title := doc_title document;
                     in_kind := doc_kind document;
                     in_content := update_draft model document description;
                     in_userId := userId |}
                  (Some document) (clock w)]> (documents w)
    ∧ chats w' = chats w ∧ messages w' = messages w ∧ suggestions w' = suggestions w.
Proof.
  intros Hf Hs Hdoc. unfold updateDocument_execute, update_deltas, update_draft.
  rewrite run_bind, (run_getDocumentById _ _ Hf), Hdoc. cbv beta iota.
  repeat mstep. destruct (doc_kind document) eqn:Hkind.
  - repeat mstep. rewrite for_await_text. cbv beta iota. repeat mstep. rewrite Hs. cbv beta iota.
    rewrite run_saveDocument by exact Hf. cbv beta iota. rewrite run_ret.
    eexists. split; [reflexivity|]. simpl. rewrite Hdoc.
    repeat split. rewrite <- !app_assoc. reflexivity.
  - repeat mstep. rewrite for_await_code. cbv beta iota. repeat mstep. rewrite Hs. cbv beta iota.
    rewrite run_saveDocument by exact Hf. cbv beta iota. rewrite run_ret.
    eexists. split; [reflexivity|]. simpl. rewrite Hdoc.
    repeat split. rewrite <- !app_assoc. reflexivity.
Qed.

(** *** [requestSuggestions] *)

Lemma suggestion_rows_drafts (userId : string) (dc : Z) (drafts : list SuggestionDraft) :
  ∀ t, sg_draft <$> suggestion_rows userId dc t drafts = drafts.
Proof.
  induction drafts as [|d l IH]; intros t; [reflexivity|].
  rewrite suggestion_rows_cons, fmap_cons, IH. reflexivity.
Qed.

Lemma suggestion_rows_stamps (userId : string) (dc : Z) (drafts : list SuggestionDraft) :
  ∀ t, Forall (λ r, sg_userId r = userId ∧ sg_documentCreatedAt r = dc)
         (suggestion_rows userId dc t drafts).
Proof.
  induction drafts as [|d l IH]; intros t; [constructor|].
  rewrite suggestion_rows_cons. constructor; [split; reflexivity|apply IH].
Qed.

Lemma suggestion_drafts_elements (documentId : string) (elements : list Element) :
  ∀ n,
    (λ d, (sd_originalText d, sd_suggestedText d, sd_description d))
      <$> suggestion_drafts documentId n elements
    = (λ e, (originalSentence e, suggestedSentence e, description e)) <$> elements.
Proof.
  induction elements as [|e l IH]; intros n; [reflexivity|].
  rewrite suggestion_drafts_cons, !fmap_cons, IH. reflexivity.
Qed.

Lemma suggestion_drafts_documentId (documentId : string) (elements : list Element) :
  ∀ n, Forall (λ d, sd_documentId d = documentId)
         (suggestion_drafts documentId n elements).
Proof.
  induction elements as [|e l IH]; intros n; [constructor|].
  rewrite suggestion_drafts_cons. constructor; [reflexivity|apply IH].
Qed.

(** C5. On a stored document with a non-empty content, [requestSuggestions]
    saves in one batch one row per element of the generation, in the order
    of the elements and with their three texts, each with the requested
    [documentId], the requester as user and the creation time of the
    document as [documentCreatedAt]; before that it has written one
    [suggestion] event per row, in the same order, carrying the suggestion
    of the row.  On a missing document, or one whose content is null or
    empty, it returns the tool-level error result and leaves the world as it
    was. *)
Theorem requestSuggestions_persists (session : Session) (userId : string) (model : Model)
    (documentId : string) (w : World) :
  faults w = [] →
  truthy (session_user_id session) = Some userId →
  (∀ document content,
     documents w !! documentId = Some document →
     truthy (doc_content document) = Some content →
     ∃ w' rows,
       requestSuggestions_execute session model documentId w =
         (Ok (SuggestionsResult documentId (doc_title document) (doc_kind document)
                "Suggestions have been added to the document"), w')
       ∧ suggestions w' = suggestions w ++ rows
       ∧ dataStream w' =
           dataStream w ++
           ((λ r, DataPart "suggestion" (CSuggestion (sg_draft r))) <$> rows)
       ∧ (λ r, (sd_originalText (sg_draft r), sd_suggestedText (sg_draft r),
                sd_description (sg_draft r))) <$> rows
         = (λ e, (originalSentence e, suggestedSentence e, description e))
             <$> streamObject_elementStream (apiIdentifier model) suggestions_system content
       ∧ Forall (λ r, sd_documentId (sg_draft r) = documentId
                      ∧ sg_documentCreatedAt r = doc_createdAt document
                      ∧ sg_userId r = userId) rows
       ∧ documents w' = documents w)
  ∧ ((documents w !! documentId = None
      ∨ ∃ document, documents w !! documentId = Some document
                    ∧ (doc_content document = None ∨ doc_content document = Some "")) →
     requestSuggestions_execute session model documentId w =
       (Ok (ErrorResult "Document not found"), w)).
Proof.
  intros Hf Hs. split.
  - intros document content Hdoc Hcontent. unfold requestSuggestions_execute.
    rewrite run_bind, (run_getDocumentById _ _ Hf), Hdoc. cbv beta iota.
    rewrite Hcontent. rewrite run_bind, for_await_suggestions. cbv beta iota.
    rewrite Hs. rewrite run_bind. rewrite run_bind, map_M_suggestion_row. cbv beta iota.
    rewrite run_saveSuggestions by exact Hf. cbv beta iota. rewrite run_ret.
    set (drafts := suggestion_drafts documentId (uuids w)
                     (streamObject_elementStream (apiIdentifier model)
                        suggestions_system content)).
    eexists.
    exists (suggestion_rows userId (doc_createdAt document) (clock w) drafts).
    split; [reflexivity|]. simpl. split; [reflexivity|].
    split; [|split; [|split; [|reflexivity]]].
    + f_equal. unfold suggestion_events.
      rewrite <- (suggestion_rows_drafts userId (doc_createdAt document) drafts (clock w)) at 1.
      rewrite <- list_fmap_compose. reflexivity.
    + rewrite (list_fmap_compose sg_draft
                 (λ d, (sd_originalText d, sd_suggestedText d, sd_description d))).
      rewrite suggestion_rows_drafts. apply suggestion_drafts_elements.
    + apply Forall_forall. intros r Hr.
      pose proof (suggestion_rows_stamps userId (doc_createdAt document) drafts (clock w))
        as Hstamps.
      pose proof (suggestion_drafts_documentId documentId
                    (streamObject_elementStream (apiIdentifier model)
                       suggestions_system content) (uuids w)) as Hids.
      rewrite Forall_forall in Hstamps. rewrite Forall_forall in Hids.
      destruct (Hstamps r Hr) as [Hu Hdc]. repeat split; [|exact Hdc|exact Hu].
      apply Hids. fold drafts.
      rewrite <- (suggestion_rows_drafts userId (doc_createdAt document) drafts (clock w)).
      apply list_elem_of_fmap. exists r. split; [reflexivity|exact Hr].
  - intros Hbad. unfold requestSuggestions_execute.
    rewrite run_bind, (run_getDocumentById _ _ Hf). cbv beta iota.
    destruct Hbad as [->|(document & -> & Hempty)]; [reflexivity|].
    assert (truthy (doc_content document) = None) as ->; [|reflexivity].
    apply truthy_None. exact Hempty.
Qed.

End ToolProperties.

(** *** Computations that only add to the messages and the stream *)

Global Instance grows_preorder : PreOrder grows.
Proof.
  split.
  - intros w. repeat split; reflexivity.
  - intros w1 w2 w3 (Hc1 & Hm1 & Hd1) (Hc2 & Hm2 & Hd2). repeat split.
    + by rewrite Hc2.
    + by etrans.
    + by etrans.
Qed.

Section Stable.
Context (R : relation World) `{!PreOrder R}.

Lemma stable_ret {A} (a : A) : stable R (mret a : M A).
Proof. intros w. simpl. reflexivity. Qed.

Lemma stable_throw {A} (e : string) : stable R (throw e : M A).
Proof. intros w. simpl. reflexivity. Qed.

Lemma stable_bind {A B} (m : M A) (f : A → M B) :
  stable R m → (∀ a, stable R (f a)) → stable R (m ≫= f).
Proof.
  intros Hm Hf w. rewrite run_bind. specialize (Hm w).
  destruct (m w) as [[a|e] w1]; simpl in *; [|exact Hm].
  etrans; [exact Hm|apply Hf].
Qed.

Lemma stable_try_catch {A} (body : M A) (handler : string → M A) :
  stable R body → (∀ e, stable R (handler e)) → stable R (try_catch body handler).
Proof.
  intros Hb Hh w. unfold try_catch. specialize (Hb w).
  destruct (body w) as [[a|e] w1]; simpl in *; [exact Hb|].
  etrans; [exact Hb|apply Hh].
Qed.

Lemma stable_for_await {A S} (body : S → A → M S) (stream : list A) :
  (∀ s a, stable R (body s a)) → ∀ s, stable R (for_await body s stream).
Proof.
  intros Hbody. induction stream as [|x l IH]; intros s; simpl for_await.
  - apply stable_ret.
  - apply stable_bind; [apply Hbody|exact IH].
Qed.

Lemma stable_map_M {A B} (f : A → M B) (l : list A) :
  (∀ a, stable R (f a)) → stable R (map_M f l).
Proof.
  intros Hf. induction l as [|x l IH]; simpl map_M.
  - apply stable_ret.
  - apply stable_bind; [apply Hf|]. intros y.
    apply stable_bind; [exact IH|]. intros ys. apply stable_ret.
Qed.

End Stable.

Lemma grows_emit (ps : list DataStreamPart) (w : World) : grows w (emit ps w).
Proof. repeat split; simpl; [reflexivity|by apply prefix_app_r]. Qed.

Lemma grows_set_faults (f : list bool → list bool) (w : World) : grows w (set_faults f w).
Proof. repeat split; reflexivity. Qed.

Lemma stable_writeData (type : string) (c : DataContent) : stable grows (writeData type c).
Proof. intros w. apply grows_emit. Qed.

Lemma stable_writeMessageAnnotation (i : string) : stable grows (writeMessageAnnotation i).
Proof. intros w. apply grows_emit. Qed.

Lemma stable_mergePart (p : DataStreamPart) : stable grows (mergePart p).
Proof. intros w. apply grows_emit. Qed.

Lemma stable_generateUUID : stable grows generateUUID.
Proof. intros w. repeat split; reflexivity. Qed.

Lemma stable_newDate : stable grows newDate.
Proof. intros w. repeat split; reflexivity. Qed.

Lemma stable_console_error (msg : string) : stable grows (console_error msg).
Proof. intros w. repeat split; reflexivity. Qed.

Lemma stable_query {A} (run : World → A * World) :
  (∀ w, grows w (run w).2) → stable grows (query run).
Proof.
  intros Hrun w. unfold query. destruct (faults w) as [|[|] fs].
  - specialize (Hrun w). destruct (run w). exact Hrun.
  - apply grows_set_faults.
  - specialize (Hrun (set_faults (λ _, fs) w)).
    destruct (run _) as [a w1]. simpl in *.
    etrans; [apply (grows_set_faults (λ _, fs))|exact Hrun].
Qed.

Lemma stable_saveMessages (rows : list MessageRow) : stable grows (saveMessages rows).
Proof.
  apply stable_query. intros w. repeat split; simpl; [|reflexivity].
  by apply prefix_app_r.
Qed.

Lemma stable_getDocumentById (id : string) : stable grows (getDocumentById id).
Proof. apply stable_query. intros w. reflexivity. Qed.

Lemma stable_saveDocument (d : DocumentInput) : stable grows (saveDocument d).
Proof. apply stable_query. intros w. repeat split; reflexivity. Qed.

Lemma stable_saveSuggestions (rows : list Suggestion) : stable grows (saveSuggestions rows).
Proof. apply stable_query. intros w. repeat split; reflexivity. Qed.

(** Decomposes a computation built from the primitives above. *)
Ltac solve_stable :=
  repeat (intros; first
    [ apply (stable_ret grows)
    | apply (stable_bind grows)
    | apply (stable_try_catch grows)
    | apply (stable_for_await grows)
    | apply (stable_map_M grows)
    | apply stable_writeData
    | apply stable_writeMessageAnnotation
    | apply stable_mergePart
    | apply stable_generateUUID
    | apply stable_newDate
    | apply stable_console_error
    | apply stable_saveMessages
    | apply stable_getDocumentById
    | apply stable_saveDocument
    | apply stable_saveSuggestions
    | match goal with
      | |- stable _ (match ?x with _ => _ end) => destruct x
      | |- stable _ (if ?x then _ else _) => destruct x
      end ]).

Lemma stable_text_delta_body (d : string) (delta : TextStreamPart) :
  stable grows (text_delta_body d delta).
Proof. unfold text_delta_body. solve_stable. Qed.

Lemma stable_code_delta_body (d : string) (delta : ObjectStreamPart) :
  stable grows (code_delta_body d delta).
Proof. unfold code_delta_body. solve_stable. Qed.

Lemma stable_suggestion_body (documentId : string) (acc : list SuggestionDraft)
    (e : Element) :
  stable grows (suggestion_body documentId acc e).
Proof. unfold suggestion_body. solve_stable. Qed.

Lemma stable_suggestion_row (userId : string) (document : Document) (d : SuggestionDraft) :
  stable grows (suggestion_row userId document d).
Proof. unfold suggestion_row. solve_stable. Qed.

Lemma stable_response_row (id : string) (m : CoreMessage) :
  stable grows (response_row id m).
Proof. unfold response_row. solve_stable. Qed.

Ltac solve_stable_loops :=
  repeat (solve_stable; intros; first
    [ apply stable_text_delta_body | apply stable_code_delta_body
    | apply stable_suggestion_body | apply stable_suggestion_row
    | apply stable_response_row ]).

Section StreamPhase.
Context `{Collaborators}.

Lemma stable_execute_tool (session : Session) (model : Model) (call : ToolCall) :
  stable grows (execute_tool session model call).
Proof.
  destruct call; simpl.
  - unfold getWeather_execute. solve_stable.
  - unfold createDocument_execute. solve_stable_loops.
  - unfold updateDocument_execute. solve_stable_loops.
  - unfold requestSuggestions_execute. solve_stable_loops.
Qed.

Lemma stable_onFinish (session : Session) (id : string) (msgs : list CoreMessage) :
  stable grows (onFinish session id msgs).
Proof. unfold onFinish. solve_stable_loops. Qed.

Lemma stable_run_actions (session : Session) (model : Model) (actions : list ModelAction) :
  stable grows (run_actions session model actions).
Proof.
  unfold run_actions. apply (stable_for_await grows).
  intros [] a. unfold run_action. solve_stable. apply stable_execute_tool.
Qed.

(** The whole top-level generation, whatever the model asks for, leaves
    the chats alone and only adds messages and stream parts. *)
Lemma stable_streamText (session : Session) (model : Model) (id : string)
    (coreMessages : list CoreMessage) :
  stable grows (streamText session model id coreMessages).
Proof.
  unfold streamText. cbv zeta.
  apply (stable_bind grows); [apply stable_run_actions|].
  intros _. apply stable_onFinish.
Qed.

(** C4, as the code has it. An invocation of [createDocument] with kind
    [code] writes to the stream, in this order, one [id], one [title], one
    [kind], one [clear], then one [code-delta] for every streamed object
    whose [code] is a non-empty string, carrying that whole value, then one
    [finish]; there may be no [code-delta] at all.  The document saved under
    the new identifier has for content the last value emitted, or the empty
    string when none was.  The statement is about the events of the
    invocation itself: the route does nothing to keep the events of other
    tool calls of the same round from falling between them. *)
Theorem createDocument_code_stream (session : Session) (userId : string) (model : Model)
    (title : string) (w : World) :
  faults w = [] →
  truthy (session_user_id session) = Some userId →
  ∃ w',
    createDocument_execute session model title KindCode w =
      (Ok (DocumentResult (uuid_of (uuids w)) title KindCode
             "A document was created and is now visible to the user."), w')
    ∧ dataStream w' =
        dataStream w ++
        code_creation_events (uuid_of (uuids w)) title
          (emitted_codes (streamObject_fullStream (apiIdentifier model) codePrompt title))
    ∧ documents w' =
        <[uuid_of (uuids w) :=
            document_row
              {| in_id := uuid_of (uuids w); in_title := title; in_kind := KindCode;
                 in_content :=
                   default ""
                     (last (emitted_codes
                              (streamObject_fullStream (apiIdentifier model) codePrompt title)));
                 in_userId := userId |}
              (documents w !! uuid_of (uuids w)) (clock w)]> (documents w).
Proof.
  intros Hf Hs. unfold createDocument_execute.
  repeat mstep. rewrite for_await_code. cbv beta iota.
  repeat mstep. rewrite Hs. cbv beta iota.
  rewrite run_saveDocument by exact Hf. cbv beta iota. rewrite run_ret.
  eexists. split; [reflexivity|]. split; [|reflexivity].
  simpl. unfold code_creation_events, code_events. simpl.
  rewrite <- !app_assoc. reflexivity.
Qed.

(** A streamed response whose [execute] starts with a [writeData]: the
    response has status 200, the record is the first part of its body, and
    [execute] changed no chat and removed no message, even if it failed. *)
Lemma createDataStreamResponse_first (type : string) (c : DataContent) (rest : M unit)
    (w : World) :
  stable grows rest →
  ∃ resp w' tail,
    createDataStreamResponse (writeData type c;; rest) w = (Ok resp, w')
    ∧ status resp = 200
    ∧ body resp = BodyStream (DataPart type c :: tail)
    ∧ chats w' = chats w
    ∧ messages w `prefix_of` messages w'.
Proof.
  intros Hrest. unfold createDataStreamResponse.
  rewrite run_bind, run_writeData. cbv beta iota.
  specialize (Hrest (emit [DataPart type c] (set_dataStream (λ _, []) w))).
  destruct (rest _) as [[[]|e] w1]; destruct Hrest as (Hc & Hm & [k Hd]); simpl in *.
  - eexists _, _, k. rewrite Hd. repeat split; assumption.
  - eexists _, _, (k ++ [ErrorPart e]). rewrite Hd. repeat split; assumption.
Qed.

End StreamPhase.

Section RouteProperties.
Context `{Collaborators}.

(** *** The guards of [POST] *)

(** C1. Whatever the store holds, [POST] answers 401 when the request has no
    valid session, whatever the model and the messages; with a valid session
    it answers 404 when [modelId] names no configured model, whatever the
    messages; with a valid session and a configured model it answers 400
    when the converted message sequence has no message of role [user].  In
    the three cases the world is left as it was: no row of any table is
    created, nothing is written or drawn. *)
Theorem POST_guards (auth : option Session) (request : PostRequest) (w : World) :
  (requester auth = None →
     POST auth request w = (Ok (plain "Unauthorized" 401), w))
  ∧ (is_Some (requester auth) →
     Forall (λ model, model_id model ≠ req_modelId request) models →
     POST auth request w = (Ok (plain "Model not found" 404), w))
  ∧ (is_Some (requester auth) →
     Exists (λ model, model_id model = req_modelId request) models →
     Forall (λ m, role m ≠ RoleUser) (convertToCoreMessages (req_messages request)) →
     POST auth request w = (Ok (plain "No user message found" 400), w)).
Proof.
  unfold requester, POST. repeat split.
  - intros Hreq. destruct auth as [session|]; [|reflexivity].
    rewrite Hreq. reflexivity.
  - intros [uid Huid] Hnone. destruct auth as [session|]; [|discriminate].
    rewrite Huid. apply find_model_None in Hnone. rewrite Hnone. reflexivity.
  - intros [uid Huid] Hsome Hnouser. destruct auth as [session|]; [|discriminate].
    rewrite Huid.
    destruct (find _ models) as [model|] eqn:Hfind.
    + apply getMostRecentUserMessage_None in Hnouser. rewrite Hnouser. reflexivity.
    + apply find_model_None in Hfind. apply Exists_exists in Hsome.
      destruct Hsome as (m & Hin & Hm).
      rewrite Forall_forall in Hfind. destruct (Hfind m Hin Hm).
Qed.

(** *** [POST] past its guards *)

(** Past the guards, and when the store calls go through, [POST] is the
    streamed response opened in [stream_start]. *)
Lemma POST_accepted (session : Session) (userId : string) (model : Model)
    (userMessage : CoreMessage) (request : PostRequest) (w : World) :
  faults w = [] →
  truthy (session_user_id session) = Some userId →
  find (λ model, bool_decide (model_id model = req_modelId request)) models = Some model →
  getMostRecentUserMessage (convertToCoreMessages (req_messages request)) = Some userMessage →
  POST (Some session) request w =
  createDataStreamResponse
    (writeData "user-message-id" (CString (uuid_of (uuids w)));;
     streamText session model (req_id request) (convertToCoreMessages (req_messages request)))
    (stream_start userId userMessage (req_id request) w).
Proof.
  intros Hf Hs Hmodel Hum. unfold POST, stream_start. rewrite Hs, Hmodel, Hum.
  cbv zeta. rewrite run_bind, (run_getChatById _ _ Hf). cbv beta iota.
  destruct (chats w !! req_id request) as [chat|].
  - repeat mstep. rewrite run_saveMessages by exact Hf. reflexivity.
  - rewrite run_bind, run_saveChat by exact Hf. cbv beta iota.
    repeat mstep. rewrite run_saveMessages by exact Hf. reflexivity.
Qed.

(** C7. A request that passes the three guards, when the store calls go
    through, is answered by a stream; in the world [w1] in which the stream
    is opened the message table holds one more row, the user's most recent
    message under a new identifier and the time of the save, and the chat
    table holds one more chat if the identifier had none, owned by the
    requester and titled by [generateTitleFromUserMessage] on that message,
    and is as before if the identifier had one.  What follows creates or
    changes no chat and removes no message. *)
Theorem POST_creates_chat_and_message (auth : option Session) (userId : string)
    (model : Model) (userMessage : CoreMessage) (request : PostRequest) (w : World) :
  faults w = [] →
  requester auth = Some userId →
  find (λ model, bool_decide (model_id model = req_modelId request)) models = Some model →
  getMostRecentUserMessage (convertToCoreMessages (req_messages request)) = Some userMessage →
  ∃ session w1 resp w',
    auth = Some session
    ∧ POST auth request w =
        createDataStreamResponse
          (writeData "user-message-id" (CString (uuid_of (uuids w)));;
           streamText session model (req_id request)
             (convertToCoreMessages (req_messages request))) w1
    ∧ (chats w !! req_id request = None →
         chats w1 =
           <[req_id request :=
               {| chat_id := req_id request; chat_userId := userId;
                  chat_title := generateTitleFromUserMessage userMessage;
                  chat_createdAt := clock w |}]> (chats w)
         ∧ messages w1 =
             messages w ++
             [ {| msg_id := uuid_of (uuids w); msg_chatId := req_id request;
                  msg_role := role userMessage; msg_content := content userMessage;
                  msg_createdAt := clock w + 1 |} ])
    ∧ (is_Some (chats w !! req_id request) →
         chats w1 = chats w
         ∧ messages w1 =
             messages w ++
             [ {| msg_id := uuid_of (uuids w); msg_chatId := req_id request;
                  msg_role := role userMessage; msg_content := content userMessage;
                  msg_createdAt := clock w |} ])
    ∧ POST auth request w = (Ok resp, w')
    ∧ status resp = 200
    ∧ chats w' = chats w1
    ∧ messages w1 `prefix_of` messages w'.
Proof.
  intros Hf Hreq Hmodel Hum. destruct auth as [session|]; [|discriminate].
  simpl in Hreq.
  pose proof (POST_accepted session userId model userMessage request w
                Hf Hreq Hmodel Hum) as Hpost.
  destruct (createDataStreamResponse_first "user-message-id"
              (CString (uuid_of (uuids w)))
              (streamText session model (req_id request)
                 (convertToCoreMessages (req_messages request)))
              (stream_start userId userMessage (req_id request) w)
              (stable_streamText _ _ _ _))
    as (resp & w' & tail & Hrun & Hstatus & _ & Hchats & Hmsgs).
  exists session, (stream_start userId userMessage (req_id request) w), resp, w'.
  split; [reflexivity|]. split; [exact Hpost|].
  split; [|split; [|split; [|split; [|split]]]].
  - intros Hnone. unfold stream_start. rewrite Hnone. split; reflexivity.
  - intros [chat Hsome]. unfold stream_start. rewrite Hsome. split; reflexivity.
  - rewrite Hpost. exact Hrun.
  - exact Hstatus.
  - exact Hchats.
  - exact Hmsgs.
Qed.

(** C8. A request that passes the three guards, when the store calls go
    through, is answered with status 200 by a stream whose first part is
    the record [{ type: 'user-message-id', content }]; its content is the
    identifier of the row saved for the user's message, and everything the
    generation and the tools write comes after it. *)
Theorem POST_first_event (auth : option Session) (userId : string)
    (model : Model) (userMessage : CoreMessage) (request : PostRequest) (w : World) :
  faults w = [] →
  requester auth = Some userId →
  find (λ model, bool_decide (model_id model = req_modelId request)) models = Some model →
  getMostRecentUserMessage (convertToCoreMessages (req_messages request)) = Some userMessage →
  ∃ resp w' userMessageId tail row,
    POST auth request w = (Ok resp, w')
    ∧ status resp = 200
    ∧ body resp = BodyStream (DataPart "user-message-id" (CString userMessageId) :: tail)
    ∧ row ∈ messages w'
    ∧ msg_id row = userMessageId
    ∧ msg_chatId row = req_id request
    ∧ msg_role row = role userMessage
    ∧ msg_content row = content userMessage.
Proof.
  intros Hf Hreq Hmodel Hum. destruct auth as [session|]; [|discriminate].
  simpl in Hreq.
  rewrite (POST_accepted session userId model userMessage request w Hf Hreq Hmodel Hum).
  destruct (createDataStreamResponse_first "user-message-id"
              (CString (uuid_of (uuids w)))
              (streamText session model (req_id request)
                 (convertToCoreMessages (req_messages request)))
              (stream_start userId userMessage (req_id request) w)
              (stable_streamText _ _ _ _))
    as (resp & w' & tail & Hrun & Hstatus & Hbody & _ & [k Hmsgs]).
  exists resp, w', (uuid_of (uuids w)), tail.
  exists (user_row (req_id request) userMessage (uuids w)
            (match chats w !! req_id request with
             | None => clock w + 1
             | Some _ => clock w
             end)).
  split; [exact Hrun|]. split; [exact Hstatus|]. split; [exact Hbody|].
  split; [|repeat split].
  rewrite Hmsgs. unfold stream_start. simpl.
  apply elem_of_app. left. apply elem_of_app. right.
  destruct (chats w !! req_id request); simpl; apply list_elem_of_singleton; reflexivity.
Qed.

(** C10. [POST] never compares the requester with the owner of the chat:
    when the identifier names a chat of another user, a request that passes
    the three guards is answered by the stream all the same, the user's
    message is saved as a message of that chat, and the chat stays with its
    owner. *)
Theorem POST_foreign_chat (auth : option Session) (userId : string)
    (model : Model) (userMessage : CoreMessage) (request : PostRequest)
    (chat : Chat) (w : World) :
  faults w = [] →
  requester auth = Some userId →
  find (λ model, bool_decide (model_id model = req_modelId request)) models = Some model →
  getMostRecentUserMessage (convertToCoreMessages (req_messages request)) = Some userMessage →
  chats w !! req_id request = Some chat →
  chat_userId chat ≠ userId →
  ∃ resp w' tail,
    POST auth request w = (Ok resp, w')
    ∧ status resp = 200
    ∧ body resp =
        BodyStream (DataPart "user-message-id" (CString (uuid_of (uuids w))) :: tail)
    ∧ messages w ++
        [ {| msg_id := uuid_of (uuids w); msg_chatId := req_id request;
             msg_role := role userMessage; msg_content := content userMessage;
             msg_createdAt := clock w |} ] `prefix_of` messages w'
    ∧ chats w' = chats w
    ∧ chats w' !! req_id request = Some chat.
Proof.
  intros Hf Hreq Hmodel Hum Hchat _. destruct auth as [session|]; [|discriminate].
  simpl in Hreq.
  rewrite (POST_accepted session userId model userMessage request w Hf Hreq Hmodel Hum).
  destruct (createDataStreamResponse_first "user-message-id"
              (CString (uuid_of (uuids w)))
              (streamText session model (req_id request)
                 (convertToCoreMessages (req_messages request)))
              (stream_start userId userMessage (req_id request) w)
              (stable_streamText _ _ _ _))
    as (resp & w' & tail & Hrun & Hstatus & Hbody & Hchats & Hmsgs).
  exists resp, w', tail.
  unfold stream_start in Hchats, Hmsgs. rewrite Hchat in Hchats, Hmsgs. simpl in *.
  repeat split; try assumption. by rewrite Hchats.
Qed.

End RouteProperties.

(** *** [onFinish] *)

Global Instance uuid_of_inj : Inj (=) (=) uuid_of.
Proof.
  intros a b Heq. unfold uuid_of in Heq. simpl in Heq.
  injection Heq as Heq. by apply (inj pretty).
Qed.

(** The identifiers of the rows are pairwise distinct. *)
Lemma response_rows_NoDup (id : string) (n : nat) (t : Z) (msgs : list CoreMessage) :
  NoDup (msg_id <$> response_rows id n t msgs).
Proof.
  assert (Hids : msg_id <$> response_rows id n t msgs = uuid_of <$> seq n (length msgs)).
  { revert n t. induction msgs as [|m l IH]; intros n t; [reflexivity|].
    rewrite response_rows_cons. simpl. f_equal. apply IH. }
  rewrite Hids. apply (NoDup_fmap_2 _). apply NoDup_seq.
Qed.

(** One annotation per row of role [assistant], with the identifier of the
    row. *)
Lemma response_annotations_rows (id : string) (msgs : list CoreMessage) :
  ∀ (n : nat) (t : Z),
    response_annotations n msgs =
    (λ r, AnnotationPart (msg_id r))
      <$> filter (λ r, msg_role r = RoleAssistant) (response_rows id n t msgs).
Proof.
  induction msgs as [|m l IH]; intros n t; [reflexivity|].
  rewrite response_annotations_cons, response_rows_cons, filter_cons. simpl.
  rewrite (IH (S n) (t + 1)). case_decide; reflexivity.
Qed.

(** What [sanitizeResponseMessages] keeps has no tool call without result. *)
Lemma sanitizeResponseMessages_answered (response : list CoreMessage) (m : CoreMessage) :
  m ∈ sanitizeResponseMessages response →
  role m = RoleAssistant →
  ¬ unanswered_call response (content m).
Proof.
  unfold sanitizeResponseMessages. intros Hin Hrole (tc & tn & args & Hpart & Hnot).
  apply list_elem_of_filter in Hin as [_ Hin].
  apply list_elem_of_fmap in Hin as (m0 & -> & _).
  unfold sanitize_content in *.
  destruct (role m0) eqn:Hr0; destruct (content m0) as [s|ps] eqn:Hc0;
    simpl in *; try rewrite Hr0 in Hrole; try discriminate;
    try rewrite Hc0 in Hpart; try by apply elem_of_nil in Hpart.
  apply list_elem_of_filter in Hpart as [Hans _]. simpl in Hans.
  apply bool_decide_eq_true in Hans. contradiction.
Qed.

(** C6. With the session of the request, [onFinish] never fails, whatever
    the store does.  The messages it works on are those that
    [sanitizeResponseMessages] keeps, none of which has a tool call without
    result.  When the save goes through, the message table gains one row per
    kept message, in order, each under an identifier of its own, and the
    stream gains one annotation per row of role [assistant], carrying the
    identifier of the row.  When the save fails, the failure is logged with
    [console.error] and the message table is as before. *)
Theorem onFinish_persists (session : Session) (userId : string) (id : string)
    (response : list CoreMessage) (w : World) :
  truthy (session_user_id session) = Some userId →
  (∃ w', onFinish session id response w = (Ok (), w'))
  ∧ Forall (λ m, role m = RoleAssistant → ¬ unanswered_call response (content m))
      (sanitizeResponseMessages response)
  ∧ (head (faults w) ≠ Some true →
     ∃ w' rows,
       onFinish session id response w = (Ok (), w')
       ∧ rows = response_rows id (uuids w) (clock w) (sanitizeResponseMessages response)
       ∧ messages w' = messages w ++ rows
       ∧ NoDup (msg_id <$> rows)
       ∧ dataStream w' =
           dataStream w ++
           ((λ r, AnnotationPart (msg_id r))
              <$> filter (λ r, msg_role r = RoleAssistant) rows)
       ∧ errlog w' = errlog w)
  ∧ (head (faults w) = Some true →
     ∃ w',
       onFinish session id response w = (Ok (), w')
       ∧ messages w' = messages w
       ∧ errlog w' = errlog w ++ ["Failed to save chat"]).
Proof.
  intros Hs.
  assert (Hrun : onFinish session id response w =
                 try_catch
                   (saveMessages
                      (response_rows id (uuids w) (clock w)
                         (sanitizeResponseMessages response)))
                   (λ _, console_error "Failed to save chat")
                   (set_clock (λ t, t + Z.of_nat (length (sanitizeResponseMessages response)))
                      (emit (response_annotations (uuids w) (sanitizeResponseMessages response))
                         (set_uuids (λ n, (n + length (sanitizeResponseMessages response))%nat)
                            w)))).
  { unfold onFinish. rewrite Hs. unfold try_catch. cbv zeta.
    rewrite run_bind, map_M_response_row. reflexivity. }
  rewrite Hrun. unfold try_catch, saveMessages, query. simpl faults.
  split; [|split; [|split]].
  - destruct (faults w) as [|[|] fs]; eexists; reflexivity.
  - apply Forall_forall. intros m Hin. by apply sanitizeResponseMessages_answered.
  - intros Hhead. destruct (faults w) as [|[|] fs]; [|done|].
    + eexists _, _. split; [reflexivity|]. split; [reflexivity|]. simpl.
      split; [reflexivity|]. split; [apply response_rows_NoDup|].
      split; [|reflexivity]. f_equal. apply response_annotations_rows.
    + eexists _, _. split; [reflexivity|]. split; [reflexivity|]. simpl.
      split; [reflexivity|]. split; [apply response_rows_NoDup|].
      split; [|reflexivity]. f_equal. apply response_annotations_rows.
  - intros Hhead. destruct (faults w) as [|[|] fs]; try discriminate.
    eexists. split; [reflexivity|]. split; reflexivity.
Qed.

(** *** [DELETE] *)

(** [DELETE] on an identifier that names no chat answers 500: the handler
    reads [chat.userId] without testing [chat]. *)
Lemma DELETE_missing_chat (session : Session) (user : User) (id : string) (w : World) :
  faults w = [] →
  id ≠ "" →
  session_user session = Some user →
  chats w !! id = None →
  DELETE (Some session) (Some id) w =
  (Ok (plain "An error occurred while processing your request" 500), w).
Proof.
  intros Hf Hid Hu Hchat. unfold DELETE.
  assert (truthy (Some id) = Some id) as -> by (by apply truthy_Some).
  rewrite Hu. unfold try_catch.
  rewrite run_bind, (run_getChatById _ _ Hf), Hchat. reflexivity.
Qed.

(** C2, at the input where the code departs from it. With a session and an
    identifier that names a stored chat: a requester who is not its owner
    gets 401 and the world is as it was; its owner gets 200, after which the
    chat and the messages of the chat are gone; and the same request once
    more gets 500, not 401 or 404, and changes nothing. *)
Theorem DELETE_ownership (session : Session) (user : User) (id : string)
    (chat : Chat) (w : World) :
  faults w = [] →
  id ≠ "" →
  session_user session = Some user →
  chats w !! id = Some chat →
  (user_id user ≠ Some (chat_userId chat) →
     DELETE (Some session) (Some id) w = (Ok (plain "Unauthorized" 401), w))
  ∧ (user_id user = Some (chat_userId chat) →
     ∃ w1,
       DELETE (Some session) (Some id) w = (Ok (plain "Chat deleted" 200), w1)
       ∧ chats w1 = delete id (chats w)
       ∧ messages w1 = filter (λ r, msg_chatId r ≠ id) (messages w)
       ∧ DELETE (Some session) (Some id) w1 =
           (Ok (plain "An error occurred while processing your request" 500), w1)).
Proof.
  intros Hf Hid Hu Hchat.
  assert (Hrun : DELETE (Some session) (Some id) w =
                 if decide (Some (chat_userId chat) ≠ user_id user)
                 then (Ok (plain "Unauthorized" 401), w)
                 else (Ok (plain "Chat deleted" 200),
                       set_messages (filter (λ r, msg_chatId r ≠ id))
                         (set_chats (λ m, delete id m) w))).
  { unfold DELETE.
    assert (truthy (Some id) = Some id) as -> by (by apply truthy_Some).
    rewrite Hu. unfold try_catch.
    rewrite run_bind, (run_getChatById _ _ Hf), Hchat. cbv beta iota.
    case_decide; [reflexivity|].
    rewrite run_bind, run_deleteChatById by exact Hf. reflexivity. }
  rewrite Hrun. split.
  - intros Hne. rewrite decide_True; [reflexivity|]. congruence.
  - intros Heq. rewrite decide_False; [|rewrite Heq; tauto].
    eexists. split; [reflexivity|]. split; [reflexivity|]. split; [reflexivity|].
    apply (DELETE_missing_chat session user); [exact Hf|exact Hid|exact Hu|].
    simpl. apply lookup_delete_eq.
Qed.

(** X1. [DELETE] answers 404 without an [id] parameter, whoever asks, and 401
    with an [id] but without a session or without a user in it; nothing is
    read or written in either case. *)
Theorem DELETE_guards (auth : option Session) (id : option string) (w : World) :
  (truthy id = None → DELETE auth id w = (Ok (plain "Not Found" 404), w))
  ∧ (is_Some (truthy id) →
     (auth = None ∨ ∃ session, auth = Some session ∧ session_user session = None) →
     DELETE auth id w = (Ok (plain "Unauthorized" 401), w)).
Proof.
  unfold DELETE. split.
  - intros ->. reflexivity.
  - intros [i ->] [->|(session & -> & ->)]; reflexivity.
Qed.

(** X2. [DELETE] never throws: whatever the store does, it answers; and when
    the first store call fails it answers 500 and no table has changed. *)
Theorem DELETE_answers (auth : option Session) (id : option string) (w : World) :
  (∃ resp w', DELETE auth id w = (Ok resp, w'))
  ∧ (∀ i session user,
       truthy id = Some i → auth = Some session → session_user session = Some user →
       head (faults w) = Some true →
       ∃ w', DELETE auth id w =
               (Ok (plain "An error occurred while processing your request" 500), w')
             ∧ chats w' = chats w ∧ messages w' = messages w).
Proof.
  split.
  - unfold DELETE. destruct (truthy id) as [i|]; [|eexists _, _; reflexivity].
    destruct auth as [session|]; [|eexists _, _; reflexivity].
    destruct (session_user session) as [user|]; [|eexists _, _; reflexivity].
    unfold try_catch.
    match goal with
    | |- context [match ?run with (_, _) => _ end] => destruct run as [[resp|e] w1]
    end; eexists _, _; reflexivity.
  - intros i session user Hid -> Hu Hfault. unfold DELETE. rewrite Hid, Hu.
    destruct (faults w) as [|[|] fs] eqn:Hf; try discriminate.
    unfold try_catch. rewrite run_bind. unfold getChatById.
    rewrite (query_fault _ _ fs Hf). cbv beta iota. rewrite run_ret.
    eexists. split; [reflexivity|]. split; reflexivity.
Qed.

(** ** The properties on the concrete deployment *)

(** The three guards, on a request without session, on one for a model that
    is not configured, and on one without messages. *)
Lemma POST_guards_witness :
  POST (H := Demo.env) None Demo.request Demo.store
    = (Ok (plain "Unauthorized" 401), Demo.store)
  ∧ POST (H := Demo.env) (Some Demo.alice)
      {| req_id := "chat-1"; req_messages := [Demo.hello]; req_modelId := "gpt-5" |}
      Demo.store
    = (Ok (plain "Model not found" 404), Demo.store)
  ∧ POST (H := Demo.env) (Some Demo.alice)
      {| req_id := "chat-1"; req_messages := []; req_modelId := "gpt-4o" |}
      Demo.store
    = (Ok (plain "No user message found" 400), Demo.store).
Proof.
  split; [|split].
  - apply (POST_guards (H := Demo.env) None Demo.request Demo.store). reflexivity.
  - apply (POST_guards (H := Demo.env) (Some Demo.alice)).
    + exists "alice". reflexivity.
    + repeat constructor. simpl. discriminate.
  - apply (POST_guards (H := Demo.env) (Some Demo.alice)).
    + exists "alice". reflexivity.
    + constructor. reflexivity.
    + constructor.
Defined.

Lemma updateDocument_missing_witness :
  updateDocument_execute (H := Demo.env) Demo.alice Demo.gpt "doc-404" "Add a loop" Demo.store
  = (Ok (ErrorResult "Document not found"), Demo.store).
Proof.
  apply (updateDocument_missing (H := Demo.env)); vm_compute; reflexivity.
Defined.

(** The claim C4 asks for at least one [code-delta]: a generation that never
    gives a value for [code] writes none, and the stream of the creation is
    [id, title, kind, clear, finish]. *)
Lemma createDocument_code_no_delta :
  ¬ ∃ id codes,
      codes ≠ []
      ∧ dataStream
          (createDocument_execute (H := Demo.silent_env) Demo.alice Demo.gpt
             "Script" KindCode Demo.empty).2
        = code_creation_events id "Script" codes.
Proof.
  intros (id & codes & Hne & Heq). vm_compute in Heq.
  destruct codes as [|c cs]; [contradiction|]. discriminate Heq.
Qed.

Lemma createDocument_code_stream_witness :
  ∃ w',
    createDocument_execute (H := Demo.env) Demo.alice Demo.gpt "Script" KindCode Demo.empty
    = (Ok (DocumentResult "uuid-0" "Script" KindCode
             "A document was created and is now visible to the user."), w')
    ∧ dataStream w' =
        [DataPart "id" (CString "uuid-0"); DataPart "title" (CString "Script");
         DataPart "kind" (CString "code"); DataPart "clear" (CString "");
         DataPart "code-delta" (CString "print");
         DataPart "code-delta" (CString "print(1)");
         DataPart "finish" (CString "")]
    ∧ documents w' !! "uuid-0" =
        Some {| doc_id := "uuid-0"; doc_title := "Script"; doc_kind := KindCode;
                doc_content := Some "print(1)"; doc_userId := "alice";
                doc_createdAt := 100 |}.
Proof.
  destruct (createDocument_code_stream (H := Demo.env) Demo.alice "alice" Demo.gpt
              "Script" Demo.empty eq_refl eq_refl) as (w' & Hrun & Hstream & Hdocs).
  exists w'. split; [exact Hrun|]. split.
  - rewrite Hstream. reflexivity.
  - rewrite Hdocs. vm_compute. reflexivity.
Defined.

(** The claim C9 has the update replace the content only: when Bob's session
    updates Alice's document, the row is Bob's afterwards. *)
Lemma updateDocument_changes_owner :
  ¬ ∃ draft,
      documents
        (updateDocument_execute (H := Demo.env) Demo.bob Demo.gpt
           "doc-1" "Add a loop" Demo.store).2 !! "doc-1"
      = Some (replace_content Demo.alice_doc draft).
Proof.
  intros [draft Heq]. vm_compute in Heq. discriminate Heq.
Qed.

Lemma updateDocument_overwrites_witness :
  ∃ w',
    updateDocument_execute (H := Demo.env) Demo.alice Demo.gpt "doc-1" "Add a loop" Demo.store
    = (Ok (DocumentResult "doc-1" "Script" KindCode
             "The document has been updated successfully."), w')
    ∧ dataStream w' =
        [DataPart "clear" (CString "Script");
         DataPart "code-delta" (CString "print");
         DataPart "code-delta" (CString "print(1)");
         DataPart "finish" (CString "")]
    ∧ documents w' !! "doc-1" = Some (replace_content Demo.alice_doc "print(1)").
Proof.
  destruct (updateDocument_overwrites (H := Demo.env) Demo.alice "alice" Demo.gpt
              "doc-1" "Add a loop" Demo.alice_doc Demo.store eq_refl eq_refl eq_refl)
    as (w' & Hrun & Hstream & Hdocs & _).
  exists w'. split; [exact Hrun|]. split.
  - rewrite Hstream. reflexivity.
  - rewrite Hdocs. vm_compute. reflexivity.
Defined.

Lemma requestSuggestions_persists_witness :
  (∃ w' row,
     requestSuggestions_execute (H := Demo.env) Demo.alice Demo.gpt "doc-1" Demo.store
     = (Ok (SuggestionsResult "doc-1" "Script" KindCode
              "Suggestions have been added to the document"), w')
     ∧ suggestions w' = [row]
     ∧ dataStream w' = [DataPart "suggestion" (CSuggestion (sg_draft row))]
     ∧ sd_documentId (sg_draft row) = "doc-1"
     ∧ sg_documentCreatedAt row = 9)
  ∧ requestSuggestions_execute (H := Demo.env) Demo.alice Demo.gpt "doc-404" Demo.store
    = (Ok (ErrorResult "Document not found"), Demo.store).
Proof.
  destruct (requestSuggestions_persists (H := Demo.env) Demo.alice "alice" Demo.gpt
              "doc-1" Demo.store eq_refl eq_refl) as [Hok _].
  destruct (Hok Demo.alice_doc "print(0)" eq_refl eq_refl)
    as (w' & rows & Hrun & Hrows & Hstream & Htexts & Hstamps & _).
  destruct rows as [|row [|row' rows]]; try discriminate Htexts.
  split.
  - exists w', row. split; [exact Hrun|]. split; [exact Hrows|]. split; [exact Hstream|].
    apply Forall_cons_1 in Hstamps as [(Hid & Hdc & _) _]. split; [exact Hid|exact Hdc].
  - apply (requestSuggestions_persists (H := Demo.env) Demo.alice "alice" Demo.gpt
             "doc-404" Demo.store eq_refl eq_refl).
    left. vm_compute. reflexivity.
Defined.

Lemma POST_creates_chat_and_message_witness :
  ∃ w1 resp w',
    POST (H := Demo.env) (Some Demo.alice) Demo.request Demo.empty = (Ok resp, w')
    ∧ status resp = 200
    ∧ chats w1 =
        {[ "chat-1" := {| chat_id := "chat-1"; chat_userId := "alice";
                          chat_title := "Greeting"; chat_createdAt := 100 |} ]}
    ∧ messages w1 =
        [ {| msg_id := "uuid-0"; msg_chatId := "chat-1"; msg_role := RoleUser;
             msg_content := ContentString "hello"; msg_createdAt := 101 |} ]
    ∧ chats w' = chats w1
    ∧ messages w1 `prefix_of` messages w'.
Proof.
  destruct (POST_creates_chat_and_message (H := Demo.env) (Some Demo.alice) "alice"
              Demo.gpt (Demo.convert Demo.hello) Demo.request Demo.empty
              eq_refl eq_refl eq_refl eq_refl)
    as (session & w1 & resp & w' & _ & _ & Hnew & _ & Hrun & Hstatus & Hchats & Hmsgs).
  destruct (Hnew eq_refl) as [Hc1 Hm1].
  exists w1, resp, w'. split; [exact Hrun|]. split; [exact Hstatus|].
  split; [rewrite Hc1; reflexivity|]. split; [rewrite Hm1; reflexivity|].
  split; [exact Hchats|exact Hmsgs].
Defined.

Lemma POST_first_event_witness :
  ∃ resp w' tail row,
    POST (H := Demo.env) (Some Demo.alice) Demo.request Demo.empty = (Ok resp, w')
    ∧ status resp = 200
    ∧ body resp = BodyStream (DataPart "user-message-id" (CString (msg_id row)) :: tail)
    ∧ row ∈ messages w'
    ∧ msg_content row = ContentString "hello".
Proof.
  destruct (POST_first_event (H := Demo.env) (Some Demo.alice) "alice"
              Demo.gpt (Demo.convert Demo.hello) Demo.request Demo.empty
              eq_refl eq_refl eq_refl eq_refl)
    as (resp & w' & uid & tail & row & Hrun & Hstatus & Hbody & Hin & Hid & _ & _ & Hcontent).
  exists resp, w', tail, row. rewrite Hid.
  split; [exact Hrun|]. split; [exact Hstatus|]. split; [exact Hbody|].
  split; [exact Hin|exact Hcontent].
Defined.

(** Bob writes into Alice's chat. *)
Lemma POST_foreign_chat_witness :
  ∃ resp w' tail,
    POST (H := Demo.env) (Some Demo.bob) Demo.request Demo.store = (Ok resp, w')
    ∧ status resp = 200
    ∧ body resp = BodyStream (DataPart "user-message-id" (CString "uuid-0") :: tail)
    ∧ [Demo.alice_row;
       {| msg_id := "uuid-0"; msg_chatId := "chat-1"; msg_role := RoleUser;
          msg_content := ContentString "hello"; msg_createdAt := 100 |}]
      `prefix_of` messages w'
    ∧ chats w' !! "chat-1" = Some Demo.alice_chat.
Proof.
  destruct (POST_foreign_chat (H := Demo.env) (Some Demo.bob) "bob"
              Demo.gpt (Demo.convert Demo.hello) Demo.request Demo.alice_chat Demo.store
              eq_refl eq_refl eq_refl eq_refl eq_refl)
    as (resp & w' & tail & Hrun & Hstatus & Hbody & Hmsgs & _ & Hchat).
  - simpl. discriminate.
  - exists resp, w', tail. split; [exact Hrun|]. split; [exact Hstatus|].
    split; [exact Hbody|]. split; [exact Hmsgs|exact Hchat].
Defined.

Lemma onFinish_persists_witness :
  ∃ w',
    onFinish Demo.alice "chat-1" Demo.answer Demo.store = (Ok (), w')
    ∧ messages w' =
        [Demo.alice_row;
         {| msg_id := "uuid-0"; msg_chatId := "chat-1"; msg_role := RoleAssistant;
            msg_content :=
              ContentParts [TextPart "Done."; ToolCallPart "call-1" "createDocument" "{}"];
            msg_createdAt := 100 |};
         {| msg_id := "uuid-1"; msg_chatId := "chat-1"; msg_role := RoleTool;
            msg_content := ContentParts [ToolResultPart "call-1" "createDocument" "{}"];
            msg_createdAt := 101 |}]
    ∧ dataStream w' = [AnnotationPart "uuid-0"].
Proof.
  destruct (onFinish_persists Demo.alice "alice" "chat-1" Demo.answer Demo.store eq_refl)
    as (_ & _ & Hsave & _).
  destruct Hsave as (w' & rows & Hrun & Hrows & Hmsgs & _ & Hstream & _).
  - simpl. discriminate.
  - exists w'. split; [exact Hrun|]. rewrite Hmsgs, Hstream, Hrows. split; reflexivity.
Defined.

(** Alice deletes her chat, and asks again. *)
Lemma DELETE_ownership_witness :
  ∃ w1,
    DELETE (Some Demo.alice) (Some "chat-1") Demo.store
    = (Ok (plain "Chat deleted" 200), w1)
    ∧ chats w1 !! "chat-1" = None
    ∧ messages w1 = []
    ∧ DELETE (Some Demo.alice) (Some "chat-1") w1
      = (Ok (plain "An error occurred while processing your request" 500), w1).
Proof.
  destruct (DELETE_ownership Demo.alice {| user_id := Some "alice" |} "chat-1"
              Demo.alice_chat Demo.store eq_refl) as [_ Howner].
  - discriminate.
  - reflexivity.
  - reflexivity.
  - destruct (Howner eq_refl) as (w1 & Hrun & Hchats & Hmsgs & Hagain).
    exists w1. split; [exact Hrun|]. split; [rewrite Hchats; reflexivity|].
    split; [rewrite Hmsgs; reflexivity|exact Hagain].
Defined.

Lemma DELETE_guards_witness :
  DELETE (Some Demo.alice) None Demo.store = (Ok (plain "Not Found" 404), Demo.store)
  ∧ DELETE None (Some "chat-1") Demo.store = (Ok (plain "Unauthorized" 401), Demo.store).
Proof.
  split.
  - apply (DELETE_guards (Some Demo.alice) None Demo.store). reflexivity.
  - apply (DELETE_guards None (Some "chat-1") Demo.store).
    + exists "chat-1". reflexivity.
    + left. reflexivity.
Defined.

(** The store is down when Alice asks. *)
Lemma DELETE_answers_witness :
  ∃ w',
    DELETE (Some Demo.alice) (Some "chat-1") (set_faults (λ _, [true]) Demo.store)
    = (Ok (plain "An error occurred while processing your request" 500), w')
    ∧ chats w' !! "chat-1" = Some Demo.alice_chat
    ∧ messages w' = [Demo.alice_row].
Proof.
  destruct (DELETE_answers (Some Demo.alice) (Some "chat-1")
              (set_faults (λ _, [true]) Demo.store)) as [_ Hdown].
  destruct (Hdown "chat-1" Demo.alice {| user_id := Some "alice" |}
              eq_refl eq_refl eq_refl eq_refl) as (w' & Hrun & Hchats & Hmsgs).
  exists w'. split; [exact Hrun|]. split; [rewrite Hchats; reflexivity|exact Hmsgs].
Defined.

Lemma createDocument_text_stream_witness :
  ∃ w',
    createDocument_execute (H := Demo.env) Demo.alice Demo.gpt "Essay" KindText Demo.empty
    = (Ok (DocumentResult "uuid-0" "Essay" KindText
             "A document was created and is now visible to the user."), w')
    ∧ dataStream w' =
        [DataPart "id" (CString "uuid-0"); DataPart "title" (CString "Essay");
         DataPart "kind" (CString "text"); DataPart "clear" (CString "");
         DataPart "text-delta" (CString "Hello");
         DataPart "text-delta" (CString " world");
         DataPart "finish" (CString "")]
    ∧ doc_content <$> documents w' !! "uuid-0" = Some (Some "Hello world").
Proof.
  destruct (createDocument_text_stream (H := Demo.env) Demo.alice "alice" Demo.gpt
              "Essay" Demo.empty eq_refl eq_refl)
    as (w' & fullStream & -> & Hrun & Hstream & Hdocs).
  exists w'. split; [exact Hrun|]. split.
  - rewrite Hstream. reflexivity.
  - rewrite Hdocs. vm_compute. reflexivity.
Defined.

(** ** Further properties of the route *)

(** *** Store calls under a fault schedule *)

Lemma query_pass {A} (run : World → A * World) (w : World) (fs : list bool) :
  faults w = false :: fs →
  query run w =
  (Ok (run (set_faults (λ _, fs) w)).1, (run (set_faults (λ _, fs) w)).2).
Proof. intros Hf. unfold query. rewrite Hf. destruct (run _); reflexivity. Qed.

(** A store call either fails, touching nothing but the schedule, or runs on
    a world that differs from the given one in the schedule only. *)
Lemma query_cases {A} (run : World → A * World) (w : World) :
  (∃ fs, faults w = true :: fs
         ∧ query run w = (Throw "persistence failure", set_faults (λ _, fs) w))
  ∨ (∃ w0, query run w = (Ok (run w0).1, (run w0).2)
           ∧ (w0 = w ∨ ∃ fs, faults w = false :: fs ∧ w0 = set_faults (λ _, fs) w)).
Proof.
  destruct (faults w) as [|[|] fs] eqn:Hf.
  - right. exists w. split; [by apply query_ok|by left].
  - left. exists fs. split; [reflexivity|by apply query_fault].
  - right. exists (set_faults (λ _, fs) w). split; [by apply query_pass|].
    right. by exists fs.
Qed.

(** *** What a tool call may do *)

Global Instance tool_step_preorder : PreOrder tool_step.
Proof.
  split.
  - intros w. repeat split; try reflexivity; [|done].
    exists []. split; [by rewrite app_nil_r|constructor].
  - intros w1 w2 w3 (Hc1 & Hm1 & He1 & (p1 & Hd1 & Hp1) & Hdoc1 & Hs1 & Hf1)
                    (Hc2 & Hm2 & He2 & (p2 & Hd2 & Hp2) & Hdoc2 & Hs2 & Hf2).
    repeat split.
    + by rewrite Hc2.
    + by rewrite Hm2.
    + by rewrite He2.
    + exists (p1 ++ p2). split; [by rewrite Hd2, Hd1, app_assoc|by apply Forall_app].
    + by etrans.
    + by etrans.
    + intros Hf. apply Hf2, Hf1, Hf.
Qed.

Lemma tool_step_emit (ps : list DataStreamPart) (w : World) :
  Forall tool_part ps → tool_step w (emit ps w).
Proof.
  intros Hps. repeat split; try reflexivity; [|done]. by exists ps.
Qed.

Lemma tool_step_writeData (type : string) (c : DataContent) :
  type ∈ tool_event_types → stable tool_step (writeData type c).
Proof. intros Hty w. apply tool_step_emit. constructor; [exact Hty|constructor]. Qed.

(** A step that touches none of the fields the relation speaks of. *)
Lemma tool_step_quiet (w w' : World) :
  chats w' = chats w → messages w' = messages w → errlog w' = errlog w →
  dataStream w' = dataStream w → documents w' = documents w →
  suggestions w' = suggestions w → faults w' = faults w →
  tool_step w w'.
Proof.
  intros Hc Hm He Hd Hdoc Hs Hf. repeat split; try assumption.
  - exists []. split; [by rewrite app_nil_r|constructor].
  - by rewrite Hdoc.
  - by rewrite Hs.
  - by rewrite Hf.
Qed.

Lemma tool_step_generateUUID : stable tool_step generateUUID.
Proof. intros w. apply tool_step_quiet; reflexivity. Qed.

Lemma tool_step_newDate : stable tool_step newDate.
Proof. intros w. apply tool_step_quiet; reflexivity. Qed.

Lemma tool_step_query {A} (run : World → A * World) :
  (∀ w, tool_step w (run w).2) → stable tool_step (query run).
Proof.
  intros Hrun w.
  assert (Hpop : ∀ b fs, faults w = b :: fs → tool_step w (set_faults (λ _, fs) w)).
  { intros b fs Hf. repeat split; try reflexivity.
    - exists []. split; [by rewrite app_nil_r|constructor].
    - rewrite Hf. discriminate. }
  destruct (query_cases run w) as [(fs & Hf & ->)|(w0 & -> & [->|(fs & Hf & ->)])]; simpl.
  - by apply (Hpop true).
  - apply Hrun.
  - etrans; [by apply (Hpop false)|apply Hrun].
Qed.

Lemma tool_step_getDocumentById (id : string) : stable tool_step (getDocumentById id).
Proof. apply tool_step_query. intros w. apply tool_step_quiet; reflexivity. Qed.

Lemma tool_step_saveDocument (d : DocumentInput) : stable tool_step (saveDocument d).
Proof.
  apply tool_step_query. intros w. repeat split; simpl; try reflexivity; try done.
  - exists []. split; [by rewrite app_nil_r|constructor].
  - apply dom_insert_subseteq.
Qed.

Lemma tool_step_saveSuggestions (rows : list Suggestion) :
  stable tool_step (saveSuggestions rows).
Proof.
  apply tool_step_query. intros w. repeat split; simpl; try reflexivity; try done.
  - exists []. split; [by rewrite app_nil_r|constructor].
  - by apply prefix_app_r.
Qed.

(** Decomposes a computation of the tools. *)
Ltac solve_tool_step :=
  repeat (intros; first
    [ apply (stable_ret tool_step)
    | apply (stable_bind tool_step)
    | apply (stable_for_await tool_step)
    | apply (stable_map_M tool_step)
    | apply tool_step_writeData; compute_done
    | apply tool_step_generateUUID
    | apply tool_step_newDate
    | apply tool_step_getDocumentById
    | apply tool_step_saveDocument
    | apply tool_step_saveSuggestions
    | match goal with
      | |- stable _ (match ?x with _ => _ end) => destruct x
      end ]).

Lemma tool_step_text_delta_body (d : string) (delta : TextStreamPart) :
  stable tool_step (text_delta_body d delta).
Proof. unfold text_delta_body. solve_tool_step. Qed.

Lemma tool_step_code_delta_body (d : string) (delta : ObjectStreamPart) :
  stable tool_step (code_delta_body d delta).
Proof. unfold code_delta_body. solve_tool_step. Qed.

Lemma tool_step_suggestion_body (documentId : string) (acc : list SuggestionDraft)
    (e : Element) :
  stable tool_step (suggestion_body documentId acc e).
Proof. unfold suggestion_body. solve_tool_step. Qed.

Lemma tool_step_suggestion_row (userId : string) (document : Document)
    (d : SuggestionDraft) :
  stable tool_step (suggestion_row userId document d).
Proof. unfold suggestion_row. solve_tool_step. Qed.

Ltac solve_tool_step_loops :=
  repeat (solve_tool_step; intros; first
    [ apply tool_step_text_delta_body | apply tool_step_code_delta_body
    | apply tool_step_suggestion_body | apply tool_step_suggestion_row ]).

Section ToolFrame.
Context `{Collaborators}.

Lemma tool_step_execute_tool (session : Session) (model : Model) (call : ToolCall) :
  stable tool_step (execute_tool session model call).
Proof.
  destruct call; simpl.
  - unfold getWeather_execute. solve_tool_step.
  - unfold createDocument_execute. solve_tool_step_loops.
  - unfold updateDocument_execute. solve_tool_step_loops.
  - unfold requestSuggestions_execute. solve_tool_step_loops.
Qed.

(** X10. Whatever tool the model calls, with whatever arguments, and
    whatever the store does, the call leaves every chat, every message and
    the error log as they were, removes no document and no suggestion, and
    writes to the stream only [writeData] records of the eight types of the
    tools. *)
Theorem execute_tool_frame (session : Session) (model : Model) (call : ToolCall)
    (w : World) :
  chats (execute_tool session model call w).2 = chats w
  ∧ messages (execute_tool session model call w).2 = messages w
  ∧ errlog (execute_tool session model call w).2 = errlog w
  ∧ dom (documents w) ⊆ dom (documents (execute_tool session model call w).2)
  ∧ suggestions w `prefix_of` suggestions (execute_tool session model call w).2
  ∧ ∃ parts,
      dataStream (execute_tool session model call w).2 = dataStream w ++ parts
      ∧ Forall (λ p, ∃ type c, p = DataPart type c ∧ type ∈ tool_event_types) parts.
Proof.
  destruct (tool_step_execute_tool session model call w)
    as (Hc & Hm & He & (parts & Hd & Hparts) & Hdocs & Hsugg & _).
  repeat split; try assumption. exists parts. split; [exact Hd|].
  eapply Forall_impl; [exact Hparts|].
  intros p Hp. destruct p as [ty c| | | |]; simpl in Hp; try contradiction.
  by exists ty, c.
Qed.

End ToolFrame.

(** *** What the generation of a chat may do *)

Lemma stable_weaken (R R' : relation World) {A} (m : M A) :
  (∀ w w', R w w' → R' w w') → stable R m → stable R' m.
Proof. intros Hsub Hm w. apply Hsub, Hm. Qed.

Lemma tool_part_later (p : DataStreamPart) : tool_part p → later_part p.
Proof. destruct p; simpl; tauto. Qed.

Lemma tool_step_turn (id : string) (w w' : World) : tool_step w w' → turn id w w'.
Proof.
  intros (Hc & Hm & _ & (parts & Hd & Hparts) & _ & _ & Hf). repeat split.
  - exact Hc.
  - exists []. split; [by rewrite app_nil_r|constructor].
  - exists parts. split; [exact Hd|].
    eapply Forall_impl; [exact Hparts|apply tool_part_later].
  - exact Hf.
Qed.

Global Instance turn_preorder (id : string) : PreOrder (turn id).
Proof.
  split.
  - intros w. apply tool_step_turn. reflexivity.
  - intros w1 w2 w3 (Hc1 & (r1 & Hm1 & Hr1) & (p1 & Hd1 & Hp1) & Hf1)
                    (Hc2 & (r2 & Hm2 & Hr2) & (p2 & Hd2 & Hp2) & Hf2).
    repeat split.
    + by rewrite Hc2.
    + exists (r1 ++ r2). split; [by rewrite Hm2, Hm1, app_assoc|by apply Forall_app].
    + exists (p1 ++ p2). split; [by rewrite Hd2, Hd1, app_assoc|by apply Forall_app].
    + intros Hf. apply Hf2, Hf1, Hf.
Qed.

Lemma turn_emit (id : string) (ps : list DataStreamPart) (w : World) :
  Forall later_part ps → turn id w (emit ps w).
Proof.
  intros Hps. repeat split; try reflexivity; [|by exists ps|done].
  exists []. split; [by rewrite app_nil_r|constructor].
Qed.

Lemma response_rows_chatId (id : string) (msgs : list CoreMessage) :
  ∀ (n : nat) (t : Z), Forall (λ r, msg_chatId r = id) (response_rows id n t msgs).
Proof.
  induction msgs as [|m l IH]; intros n t; [constructor|].
  rewrite response_rows_cons. constructor; [reflexivity|apply IH].
Qed.

Lemma response_annotations_later (n : nat) (msgs : list CoreMessage) :
  Forall later_part (response_annotations n msgs).
Proof.
  rewrite (response_annotations_rows "" msgs n 0).
  apply Forall_fmap, Forall_forall. intros r _. exact I.
Qed.

Lemma turn_intro (id : string) (w w' : World) (rows : list MessageRow)
    (parts : list DataStreamPart) :
  chats w' = chats w →
  messages w' = messages w ++ rows → Forall (λ r, msg_chatId r = id) rows →
  dataStream w' = dataStream w ++ parts → Forall later_part parts →
  (faults w = [] → faults w' = []) →
  turn id w w'.
Proof.
  intros Hc Hm Hrows Hd Hparts Hf.
  split; [exact Hc|]. split; [by exists rows|]. split; [by exists parts|exact Hf].
Qed.

Lemma turn_onFinish (session : Session) (id : string) (msgs : list CoreMessage) :
  stable (turn id) (onFinish session id msgs).
Proof.
  intros w. unfold onFinish. destruct (truthy (session_user_id session)); [|reflexivity].
  unfold try_catch. cbv zeta. rewrite run_bind, map_M_response_row. cbv beta iota.
  set (kept := sanitizeResponseMessages msgs).
  set (rows := response_rows id (uuids w) (clock w) kept).
  set (notes := response_annotations (uuids w) kept).
  set (w1 := set_clock _ (emit _ (set_uuids _ w))).
  unfold saveMessages.
  destruct (query_cases (λ w0, ((), set_messages (λ l, l ++ rows) w0)) w1)
    as [(fs & Hf & ->)|(w0 & -> & [->|(fs & Hf & ->)])]; simpl.
  - apply (turn_intro id _ _ [] notes); simpl;
      [reflexivity|by rewrite app_nil_r|constructor|reflexivity
      |apply response_annotations_later|].
    intros Hf0. simpl in Hf. rewrite Hf0 in Hf. discriminate.
  - apply (turn_intro id _ _ rows notes); simpl;
      [reflexivity|reflexivity|apply response_rows_chatId|reflexivity
      |apply response_annotations_later|done].
  - apply (turn_intro id _ _ rows notes); simpl;
      [reflexivity|reflexivity|apply response_rows_chatId|reflexivity
      |apply response_annotations_later|].
    intros Hf0. simpl in Hf. rewrite Hf0 in Hf. discriminate.
Qed.

Section Generation.
Context `{Collaborators}.

Lemma turn_run_actions (session : Session) (model : Model) (id : string)
    (actions : list ModelAction) :
  stable (turn id) (run_actions session model actions).
Proof.
  unfold run_actions. apply (stable_for_await (turn id)). intros [] a.
  unfold run_action. destruct a as [text|call].
  - intros w. apply (turn_emit id). by repeat constructor.
  - apply (stable_bind (turn id)).
    + eapply stable_weaken; [apply (tool_step_turn id)|apply tool_step_execute_tool].
    + intros _ w. apply (turn_emit id). by repeat constructor.
Qed.

Lemma turn_streamText (session : Session) (model : Model) (id : string)
    (coreMessages : list CoreMessage) :
  stable (turn id) (streamText session model id coreMessages).
Proof.
  unfold streamText. cbv zeta.
  apply (stable_bind (turn id)); [apply turn_run_actions|].
  intros _. apply turn_onFinish.
Qed.

(** A streamed response for the chat [id] opened while the store works:
    what is on its body after the first record, and what its [execute]
    leaves in the tables. *)
Lemma createDataStreamResponse_turn (id type : string) (c : DataContent) (rest : M unit)
    (w : World) :
  stable (turn id) rest →
  faults w = [] →
  ∃ resp w' tail rows,
    createDataStreamResponse (writeData type c;; rest) w = (Ok resp, w')
    ∧ status resp = 200
    ∧ body resp = BodyStream (DataPart type c :: tail)
    ∧ Forall later_part tail
    ∧ chats w' = chats w
    ∧ messages w' = messages w ++ rows
    ∧ Forall (λ r, msg_chatId r = id) rows
    ∧ faults w' = [].
Proof.
  intros Hrest Hf. unfold createDataStreamResponse.
  rewrite run_bind, run_writeData. cbv beta iota.
  specialize (Hrest (emit [DataPart type c] (set_dataStream (λ _, []) w))).
  destruct (rest _) as [[[]|e] w1];
    destruct Hrest as (Hc & (rows & Hm & Hrows) & (parts & Hd & Hparts) & Hfaults);
    simpl in *.
  - exists {| body := BodyStream (dataStream w1); status := 200 |}, w1, parts, rows.
    rewrite Hd. repeat split; try assumption. by apply Hfaults.
  - eexists _, _, (parts ++ [ErrorPart e]), rows. rewrite Hd. simpl.
    repeat split; try assumption.
    + apply Forall_app. split; [exact Hparts|]. by repeat constructor.
    + by apply Hfaults.
Qed.

(** X9. On a request that passes the guards while the store works, the
    first part of the response is the [user-message-id] record and no other
    part is one: every other [writeData] record on the response has one of
    the eight types of the tools. *)
Theorem POST_stream_vocabulary (auth : option Session) (userId : string)
    (model : Model) (userMessage : CoreMessage) (request : PostRequest) (w : World) :
  faults w = [] →
  requester auth = Some userId →
  find (λ model, bool_decide (model_id model = req_modelId request)) models = Some model →
  getMostRecentUserMessage (convertToCoreMessages (req_messages request)) = Some userMessage →
  ∃ resp w' tail,
    POST auth request w = (Ok resp, w')
    ∧ body resp =
        BodyStream (DataPart "user-message-id" (CString (uuid_of (uuids w))) :: tail)
    ∧ Forall (λ p, ∀ ty c, p = DataPart ty c → ty ∈ tool_event_types) tail
    ∧ Forall (λ p, ∀ c, p ≠ DataPart "user-message-id" c) tail.
Proof.
  intros Hf Hreq Hmodel Hum. destruct auth as [session|]; [|discriminate].
  simpl in Hreq.
  rewrite (POST_accepted session userId model userMessage request w Hf Hreq Hmodel Hum).
  destruct (createDataStreamResponse_turn (req_id request) "user-message-id"
              (CString (uuid_of (uuids w)))
              (streamText session model (req_id request)
                 (convertToCoreMessages (req_messages request)))
              (stream_start userId userMessage (req_id request) w)
              (turn_streamText _ _ _ _))
    as (resp & w' & tail & rows & Hrun & _ & Hbody & Htail & _).
  { unfold stream_start. destruct (chats w !! req_id request); exact Hf. }
  exists resp, w', tail. split; [exact Hrun|]. split; [exact Hbody|].
  assert (Hty : Forall (λ p, ∀ ty c, p = DataPart ty c → ty ∈ tool_event_types) tail).
  { eapply Forall_impl; [exact Htail|]. intros p Hp ty c ->. exact Hp. }
  split; [exact Hty|].
  eapply Forall_impl; [exact Hty|]. intros p Hp c ->.
  specialize (Hp _ _ eq_refl). revert Hp. compute_done.
Qed.

End Generation.

(** *** What [POST] keeps, whatever happens *)

Global Instance keeps_preorder : PreOrder keeps.
Proof.
  split.
  - intros w. split; reflexivity.
  - intros w1 w2 w3 [Hc1 Hm1] [Hc2 Hm2]. split; by etrans.
Qed.

Lemma grows_keeps (w w' : World) : grows w w' → keeps w w'.
Proof. intros (Hc & Hm & _). split; [by rewrite Hc|exact Hm]. Qed.

(** A step that changes neither the chats nor the messages. *)
Lemma keeps_quiet (w w' : World) :
  chats w' = chats w → messages w' = messages w → keeps w w'.
Proof. intros Hc Hm. split; [by rewrite Hc|by rewrite Hm]. Qed.

Lemma keeps_query {A} (run : World → A * World) :
  (∀ w, keeps w (run w).2) → stable keeps (query run).
Proof.
  intros Hrun w.
  destruct (query_cases run w) as [(fs & Hf & ->)|(w0 & -> & [->|(fs & Hf & ->)])]; simpl.
  - by apply keeps_quiet.
  - apply Hrun.
  - etrans; [|apply Hrun]. by apply keeps_quiet.
Qed.

(** The rule of [stable_bind] from one world on. *)
Lemma keeps_bind_at {A B} (m : M A) (f : A → M B) (w : World) :
  keeps w (m w).2 → (∀ a, stable keeps (f a)) → keeps w ((m ≫= f) w).2.
Proof.
  intros Hm Hf. rewrite run_bind. destruct (m w) as [[a|e] w1]; simpl in *; [|exact Hm].
  etrans; [exact Hm|apply Hf].
Qed.

Section Keeps.
Context `{Collaborators}.

Lemma keeps_createDataStreamResponse (execute : M unit) :
  stable grows execute → stable keeps (createDataStreamResponse execute).
Proof.
  intros Hex w. unfold createDataStreamResponse.
  specialize (Hex (set_dataStream (λ _, []) w)).
  destruct (execute _) as [[[]|e] w1]; apply grows_keeps in Hex as [Hc Hm];
    split; simpl in *; assumption.
Qed.

(** X4. Whatever the request, the session and the behaviour of the store,
    and whether [POST] answers or throws, every chat stored before is stored
    afterwards with the same row, its owner and title included, and every
    message stored before is still there, in the same order and before any
    new one. *)
Theorem POST_keeps_rows (auth : option Session) (request : PostRequest) (w : World) :
  (∀ id chat, chats w !! id = Some chat →
              chats (POST auth request w).2 !! id = Some chat)
  ∧ messages w `prefix_of` messages (POST auth request w).2.
Proof.
  assert (Hkeeps : keeps w (POST auth request w).2).
  { unfold POST.
    destruct auth as [session|]; [|reflexivity].
    destruct (truthy (session_user_id session)) as [userId|]; [|reflexivity].
    destruct (find _ models) as [model|]; [|reflexivity].
    destruct (getMostRecentUserMessage _) as [userMessage|]; [|reflexivity].
    cbv zeta. rewrite run_bind. unfold getChatById at 1.
    destruct (query_cases (λ w0, (chats w0 !! req_id request, w0)) w)
      as [(fs & Hf & ->)|(w0 & -> & Hw0)]; cbv beta iota.
    { by apply keeps_quiet. }
    assert (Hw0' : keeps w w0).
    { destruct Hw0 as [->|(fs & _ & ->)]; [reflexivity|by apply keeps_quiet]. }
    simpl. etrans; [exact Hw0'|]. clear Hw0 Hw0'.
    apply keeps_bind_at.
    - destruct (chats w0 !! req_id request) as [chat|] eqn:Hchat; [reflexivity|].
      unfold saveChat.
      destruct (query_cases
                  (λ w1, ((), set_clock (λ t, t + 1)
                                (set_chats
                                   (λ m, <[req_id request :=
                                             {| chat_id := req_id request;
                                                chat_userId := userId;
                                                chat_title :=
                                                  generateTitleFromUserMessage userMessage;
                                                chat_createdAt := clock w1 |}]> m) w1))) w0)
        as [(fs & Hf & ->)|(w1 & -> & Hw1)]; simpl.
      + by apply keeps_quiet.
      + assert (chats w1 = chats w0 ∧ messages w1 = messages w0) as [Hc Hm].
        { destruct Hw1 as [->|(fs & _ & ->)]; split; reflexivity. }
        split; simpl; [|by rewrite Hm].
        rewrite Hc. by apply insert_subseteq.
    - intros _. apply (stable_bind keeps); [intros w1; by apply keeps_quiet|].
      intros userMessageId. apply (stable_bind keeps); [intros w1; by apply keeps_quiet|].
      intros createdAt. apply (stable_bind keeps).
      + apply keeps_query. intros w1. split; simpl; [reflexivity|by apply prefix_app_r].
      + intros _. apply keeps_createDataStreamResponse.
        apply (stable_bind grows); [apply stable_writeData|].
        intros _. apply stable_streamText. }
  destruct Hkeeps as [Hc Hm]. split; [|exact Hm].
  intros id chat Hchat. by eapply lookup_weaken.
Qed.

(** X11. [POST] has no [catch] around its store calls and no transaction:
    a failure of the first call is thrown with the tables as they were, and
    when the chat of a new conversation is saved and the save of the user's
    message then fails, the failure is thrown and the new chat stays in the
    table without any message. *)
Theorem POST_not_atomic (auth : option Session) (userId : string)
    (model : Model) (userMessage : CoreMessage) (request : PostRequest) (w : World) :
  requester auth = Some userId →
  find (λ model, bool_decide (model_id model = req_modelId request)) models = Some model →
  getMostRecentUserMessage (convertToCoreMessages (req_messages request)) = Some userMessage →
  (head (faults w) = Some true →
     ∃ w', POST auth request w = (Throw "persistence failure", w')
           ∧ chats w' = chats w ∧ messages w' = messages w)
  ∧ (∀ fs, faults w = false :: false :: true :: fs →
     chats w !! req_id request = None →
     ∃ w', POST auth request w = (Throw "persistence failure", w')
           ∧ chats w' =
               <[req_id request :=
                   {| chat_id := req_id request; chat_userId := userId;
                      chat_title := generateTitleFromUserMessage userMessage;
                      chat_createdAt := clock w |}]> (chats w)
           ∧ messages w' = messages w).
Proof.
  intros Hreq Hmodel Hum. destruct auth as [session|]; [|discriminate].
  simpl in Hreq. unfold POST. rewrite Hreq, Hmodel, Hum. cbv zeta. split.
  - intros Hhead. destruct (faults w) as [|[|] fs] eqn:Hf; try discriminate.
    rewrite run_bind. unfold getChatById. rewrite (query_fault _ _ fs Hf).
    eexists. split; [reflexivity|]. split; reflexivity.
  - intros fs Hf Hfree.
    rewrite run_bind. unfold getChatById.
    rewrite (query_pass _ _ (false :: true :: fs) Hf). simpl fst. simpl snd.
    cbv beta iota. simpl chats. rewrite Hfree.
    rewrite run_bind. unfold saveChat.
    rewrite (query_pass _ _ (true :: fs)) by reflexivity. simpl fst. simpl snd.
    cbv beta iota. repeat mstep. unfold saveMessages.
    rewrite (query_fault _ _ fs) by reflexivity.
    eexists. split; [reflexivity|]. split; reflexivity.
Qed.

End Keeps.

(** *** What [DELETE] removes *)

(** X5. Whatever the session, the parameter and the behaviour of the store,
    [DELETE] either leaves the chats and the messages as they were, or it
    was asked by the owner of the chat the parameter names, answered 200,
    and removed that chat and the messages of that chat and nothing else. *)
Theorem DELETE_only_owner (auth : option Session) (id : option string) (w : World) :
  (chats (DELETE auth id w).2 = chats w ∧ messages (DELETE auth id w).2 = messages w)
  ∨ (∃ i session user chat,
       id = Some i ∧ auth = Some session ∧ session_user session = Some user
       ∧ chats w !! i = Some chat
       ∧ user_id user = Some (chat_userId chat)
       ∧ (DELETE auth id w).1 = Ok (plain "Chat deleted" 200)
       ∧ chats (DELETE auth id w).2 = delete i (chats w)
       ∧ messages (DELETE auth id w).2 = filter (λ r, msg_chatId r ≠ i) (messages w)).
Proof.
  unfold DELETE.
  destruct (truthy id) as [i|] eqn:Hid; [|by left].
  apply truthy_Some in Hid as [-> _].
  destruct auth as [session|]; [|by left].
  destruct (session_user session) as [user|] eqn:Hu; [|by left].
  unfold try_catch. rewrite run_bind. unfold getChatById.
  destruct (query_cases (λ w0, (chats w0 !! i, w0)) w)
    as [(fs & Hf & ->)|(w0 & -> & Hw0)]; cbv beta iota; [by left|].
  assert (chats w0 = chats w ∧ messages w0 = messages w) as [Hc Hm].
  { destruct Hw0 as [->|(fs & _ & ->)]; split; reflexivity. }
  simpl fst. simpl snd. rewrite Hc.
  destruct (chats w !! i) as [chat|] eqn:Hchat; [|by left].
  case_decide as Howner; [by left|].
  rewrite run_bind. unfold deleteChatById.
  destruct (query_cases
              (λ w1, ((), set_messages (filter (λ r, msg_chatId r ≠ i))
                            (set_chats (λ m, delete i m) w1))) w0)
    as [(fs & Hf & ->)|(w1 & -> & Hw1)]; cbv beta iota; [by left|].
  right. exists i, session, user, chat.
  assert (chats w1 = chats w ∧ messages w1 = messages w) as [Hc1 Hm1].
  { destruct Hw1 as [->|(fs & _ & ->)]; split; assumption. }
  repeat split; simpl; try reflexivity; try assumption.
  - destruct (user_id user) as [u|]; [|by destruct Howner].
    destruct (decide (u = chat_userId chat)) as [->|Hne]; [reflexivity|].
    destruct Howner. congruence.
  - by rewrite Hc1.
  - by rewrite Hm1.
Qed.

(** *** [DELETE] while the generation of the chat goes on *)





(** *** Saves that come after the events *)

Lemma text_draft_silent (fullStream : list TextStreamPart) :
  ∀ d, text_events fullStream = [] → text_draft d fullStream = d.
Proof.
  induction fullStream as [|delta l IH]; intros d Hev; [reflexivity|].
  destruct delta as [textDelta|type]; [discriminate|]. apply IH. exact Hev.
Qed.

Lemma code_draft_silent (fullStream : list ObjectStreamPart) (d : string) :
  code_events fullStream = [] → code_draft d fullStream = d.
Proof.
  unfold code_events, code_draft. intros Hev.
  apply fmap_nil_inv in Hev. rewrite Hev. reflexivity.
Qed.

Section LateSaves.
Context `{Collaborators}.

(** X7. [createDocument] saves the document after it has written [finish]:
    when that save fails, the call throws, the whole block of events, the
    [finish] included, is already on the stream, and no document is stored. *)
Theorem createDocument_save_failure (session : Session) (userId : string) (model : Model)
    (title : string) (kind : Kind) (w : World) :
  head (faults w) = Some true →
  truthy (session_user_id session) = Some userId →
  ∃ w',
    createDocument_execute session model title kind w = (Throw "persistence failure", w')
    ∧ dataStream w' =
        dataStream w ++
        [DataPart "id" (CString (uuid_of (uuids w))); DataPart "title" (CString title);
         DataPart "kind" (CString (kind_name kind)); DataPart "clear" (CString "")]
        ++ match kind with
           | KindText =>
               text_events
                 (streamText_fullStream (apiIdentifier model)
                    "Write about the given topic. Markdown is supported. Use headings wherever appropriate."
                    title None)
           | KindCode =>
               code_events (streamObject_fullStream (apiIdentifier model) codePrompt title)
           end
        ++ [DataPart "finish" (CString "")]
    ∧ documents w' = documents w.
Proof.
  intros Hhead Hs. destruct (faults w) as [|[|] fs] eqn:Hf; try discriminate.
  unfold createDocument_execute. repeat mstep. destruct kind.
  - repeat mstep. rewrite for_await_text. cbv beta iota. repeat mstep. rewrite Hs.
    cbv beta iota. unfold saveDocument. rewrite (query_fault _ _ fs) by exact Hf.
    eexists. split; [reflexivity|]. split; [|reflexivity].
    simpl. rewrite <- !app_assoc. reflexivity.
  - repeat mstep. rewrite for_await_code. cbv beta iota. repeat mstep. rewrite Hs.
    cbv beta iota. unfold saveDocument. rewrite (query_fault _ _ fs) by exact Hf.
    eexists. split; [reflexivity|]. split; [|reflexivity].
    simpl. rewrite <- !app_assoc. reflexivity.
Qed.

(** X12. [updateDocument] saves whatever draft the generation left: when
    the generation gives no delta at all, the stream shows [clear] and
    [finish] only and the stored content of the document is replaced by the
    empty string. *)
Theorem updateDocument_blanks (session : Session) (userId : string) (model : Model)
    (id description : string) (document : Document) (w : World) :
  faults w = [] →
  truthy (session_user_id session) = Some userId →
  documents w !! id = Some document →
  update_deltas model document description = [] →
  ∃ w',
    updateDocument_execute session model id description w =
      (Ok (DocumentResult id (doc_title document) (doc_kind document)
             "The document has been updated successfully."), w')
    ∧ dataStream w' =
        dataStream w ++
        [DataPart "clear" (CString (doc_title document)); DataPart "finish" (CString "")]
    ∧ doc_content <$> documents w' !! id = Some (Some "").
Proof.
  intros Hf Hs Hdoc Hsilent. unfold updateDocument_execute, update_deltas in *.
  rewrite run_bind, (run_getDocumentById _ _ Hf), Hdoc. cbv beta iota.
  repeat mstep. destruct (doc_kind document) eqn:Hkind.
  - repeat mstep. rewrite for_await_text. cbv beta iota. repeat mstep. rewrite Hs.
    cbv beta iota. rewrite run_saveDocument by exact Hf. cbv beta iota. rewrite run_ret.
    rewrite Hsilent, (text_draft_silent _ _ Hsilent).
    eexists. split; [reflexivity|]. simpl. split.
    + rewrite <- !app_assoc. reflexivity.
    + rewrite lookup_insert_eq. reflexivity.
  - repeat mstep. rewrite for_await_code. cbv beta iota. repeat mstep. rewrite Hs.
    cbv beta iota. rewrite run_saveDocument by exact Hf. cbv beta iota. rewrite run_ret.
    rewrite Hsilent, (code_draft_silent _ _ Hsilent).
    eexists. split; [reflexivity|]. simpl. split.
    + rewrite <- !app_assoc. reflexivity.
    + rewrite lookup_insert_eq. reflexivity.
Qed.

End LateSaves.

(** X8. [onFinish] writes the annotations while it builds the rows, before
    it saves them: when the save fails, the stream has received one
    annotation per kept message of role [assistant], each with the
    identifier meant for the row of that message, and no row was stored. *)
Theorem onFinish_annotates_before_save (session : Session) (userId : string) (id : string)
    (response : list CoreMessage) (w : World) :
  truthy (session_user_id session) = Some userId →
  head (faults w) = Some true →
  ∃ w',
    onFinish session id response w = (Ok (), w')
    ∧ dataStream w' =
        dataStream w ++
        ((λ r, AnnotationPart (msg_id r))
           <$> filter (λ r, msg_role r = RoleAssistant)
                 (response_rows id (uuids w) (clock w) (sanitizeResponseMessages response)))
    ∧ messages w' = messages w.
Proof.
  intros Hs Hhead. destruct (faults w) as [|[|] fs] eqn:Hf; try discriminate.
  unfold onFinish. rewrite Hs. unfold try_catch. cbv zeta.
  rewrite run_bind, map_M_response_row. cbv beta iota.
  unfold saveMessages. rewrite (query_fault _ _ fs) by exact Hf.
  rewrite run_console_error.
  eexists. split; [reflexivity|]. simpl. split; [|reflexivity].
  f_equal. apply response_annotations_rows.
Qed.

(** ** The further properties on the concrete deployment *)

Lemma POST_stream_vocabulary_witness :
  ∃ resp w' tail,
    POST (H := Demo.env) (Some Demo.alice) Demo.request Demo.empty = (Ok resp, w')
    ∧ body resp = BodyStream (DataPart "user-message-id" (CString "uuid-0") :: tail)
    ∧ Forall (λ p, ∀ c, p ≠ DataPart "user-message-id" c) tail.
Proof.
  destruct (POST_stream_vocabulary (H := Demo.env) (Some Demo.alice) "alice"
              Demo.gpt (Demo.convert Demo.hello) Demo.request Demo.empty
              eq_refl eq_refl eq_refl eq_refl)
    as (resp & w' & tail & Hrun & Hbody & _ & Honce).
  exists resp, w', tail. split; [exact Hrun|]. split; [exact Hbody|exact Honce].
Defined.

(** The store takes the chat of a new conversation and refuses its first
    message. *)
Lemma POST_not_atomic_witness :
  ∃ w',
    POST (H := Demo.env) (Some Demo.alice) Demo.request
      (set_faults (λ _, [false; false; true]) Demo.empty)
    = (Throw "persistence failure", w')
    ∧ chats w' !! "chat-1" =
        Some {| chat_id := "chat-1"; chat_userId := "alice"; chat_title := "Greeting";
                chat_createdAt := 100 |}
    ∧ messages w' = [].
Proof.
  destruct (POST_not_atomic (H := Demo.env) (Some Demo.alice) "alice"
              Demo.gpt (Demo.convert Demo.hello) Demo.request
              (set_faults (λ _, [false; false; true]) Demo.empty)
              eq_refl eq_refl eq_refl) as [_ Hlate].
  destruct (Hlate [] eq_refl eq_refl) as (w' & Hrun & Hchats & Hmsgs).
  exists w'. split; [exact Hrun|]. split; [rewrite Hchats; reflexivity|exact Hmsgs].
Defined.

Lemma createDocument_save_failure_witness :
  ∃ w',
    createDocument_execute (H := Demo.env) Demo.alice Demo.gpt "Script" KindCode
      (set_faults (λ _, [true]) Demo.empty)
    = (Throw "persistence failure", w')
    ∧ dataStream w' =
        [DataPart "id" (CString "uuid-0"); DataPart "title" (CString "Script");
         DataPart "kind" (CString "code"); DataPart "clear" (CString "");
         DataPart "code-delta" (CString "print");
         DataPart "code-delta" (CString "print(1)");
         DataPart "finish" (CString "")]
    ∧ documents w' = ∅.
Proof.
  destruct (createDocument_save_failure (H := Demo.env) Demo.alice "alice" Demo.gpt
              "Script" KindCode (set_faults (λ _, [true]) Demo.empty) eq_refl eq_refl)
    as (w' & Hrun & Hstream & Hdocs).
  exists w'. split; [exact Hrun|]. split; [rewrite Hstream; reflexivity|exact Hdocs].
Defined.

(** The generation stays silent on an update of Alice's script. *)
Lemma updateDocument_blanks_witness :
  ∃ w',
    updateDocument_execute (H := Demo.silent_env) Demo.alice Demo.gpt "doc-1" "Add a loop"
      Demo.store
    = (Ok (DocumentResult "doc-1" "Script" KindCode
             "The document has been updated successfully."), w')
    ∧ dataStream w' = [DataPart "clear" (CString "Script"); DataPart "finish" (CString "")]
    ∧ doc_content <$> documents w' !! "doc-1" = Some (Some "").
Proof.
  destruct (updateDocument_blanks (H := Demo.silent_env) Demo.alice "alice" Demo.gpt
              "doc-1" "Add a loop" Demo.alice_doc Demo.store
              eq_refl eq_refl eq_refl eq_refl)
    as (w' & Hrun & Hstream & Hcontent).
  exists w'. split; [exact Hrun|]. split; [exact Hstream|exact Hcontent].
Defined.

Lemma onFinish_annotates_before_save_witness :
  ∃ w',
    onFinish Demo.alice "chat-1" Demo.answer (set_faults (λ _, [true]) Demo.store)
    = (Ok (), w')
    ∧ dataStream w' = [AnnotationPart "uuid-0"]
    ∧ messages w' = [Demo.alice_row].
Proof.
  destruct (onFinish_annotates_before_save Demo.alice "alice" "chat-1" Demo.answer
              (set_faults (λ _, [true]) Demo.store) eq_refl eq_refl)
    as (w' & Hrun & Hstream & Hmsgs).
  exists w'. split; [exact Hrun|]. split; [rewrite Hstream; reflexivity|exact Hmsgs].
Defined.

